(** * Connection lifecycle of [app.db.connect.DatabaseConnection]

    A shallow embedding of [src/app/db/connect.py].  The Python object is a
    record of its six attributes; every method is a computation in a small
    state-and-exception monad whose state is the object together with the
    chronological list of the calls made to the outside world (pyodbc,
    SQLAlchemy, [sleep], [print]).  The outside world is a [Host]: it says
    which drivers are installed and which external calls raise. *)

From Stdlib Require Import ZArith List String Lia.
From stdpp Require Import base strings gmap pretty.
Import ListNotations.
Local Open Scope string_scope.
Local Open Scope Z_scope.

(** ** Exceptions *)

(** The exception classes that the module names, raises or is tested with,
    and one class outside [Exception]. *)
Inductive PyClass : Type :=
| BaseException
| KeyboardInterrupt
| Exception
| ValueError
| SQLAlchemyError
| StatementError
| DBAPIError
| OperationalError
| DatabaseConnectionError
| UserException (name : string).

(** Direct base class ([None] for the root). *)
Definition base_class (c : PyClass) : option PyClass :=
  match c with
  | BaseException => None
  | KeyboardInterrupt => Some BaseException
  | Exception => Some BaseException
  | ValueError => Some Exception
  | SQLAlchemyError => Some Exception
  | StatementError => Some SQLAlchemyError
  | DBAPIError => Some StatementError
  | OperationalError => Some DBAPIError
  | DatabaseConnectionError => Some Exception
  | UserException _ => Some Exception
  end.

Definition PyClass_eqb (c d : PyClass) : bool :=
  match c, d with
  | BaseException, BaseException
  | KeyboardInterrupt, KeyboardInterrupt
  | Exception, Exception
  | ValueError, ValueError
  | SQLAlchemyError, SQLAlchemyError
  | StatementError, StatementError
  | DBAPIError, DBAPIError
  | OperationalError, OperationalError
  | DatabaseConnectionError, DatabaseConnectionError => true
  | UserException a, UserException b => String.eqb a b
  | _, _ => false
  end.

(** [issubclass c d], walking up the single-inheritance chain (the longest
    chain has five classes). *)
Fixpoint issubclass_upto (depth : nat) (c d : PyClass) : bool :=
  PyClass_eqb c d ||
  match depth, base_class c with
  | S k, Some b => issubclass_upto k b d
  | _, _ => false
  end.

Definition issubclass : PyClass -> PyClass -> bool := issubclass_upto 5.

(** An exception object: its class, what [str(e)] gives, and [__cause__]. *)
#[warnings="-register-all"]
Inductive exn : Type :=
| Exn (cls : PyClass) (text : string) (cause : option exn).

Definition exn_class (e : exn) : PyClass := let 'Exn c _ _ := e in c.
Definition str (e : exn) : string := let 'Exn _ t _ := e in t.

Definition isinstance (e : exn) (c : PyClass) : bool := issubclass (exn_class e) c.

(** [except (A, B, ...)]: the clause matches an instance of any listed class. *)
Definition matches (classes : list PyClass) (e : exn) : bool :=
  existsb (isinstance e) classes.

(** ** Handles of the collaborators *)

Record Engine : Type := mkEngine {
  engine_id : nat;          (* position of the creating call in the trace *)
  engine_url : string;
  engine_timeout : Z
}.

Record sessionmaker : Type := mkSessionmaker { bind : Engine }.

Record Session : Type := mkSession {
  session_id : nat;         (* position of the creating call in the trace *)
  session_bind : Engine
}.

(** ** Calls to the outside world *)

Inductive Call : Type :=
| pyodbc_drivers
| create_engine (url : string) (fast_executemany : bool) (timeout : Z)
| sessionmaker_new (engine : Engine)
| Engine_connect (engine : Engine)
| Connection_exit (engine : Engine)
| Engine_dispose (engine : Engine)
| sleep (seconds : Z)
| print (line : string)
| sessionmaker_call (maker : sessionmaker)
| Session_commit (session : Session)
| Session_rollback (session : Session)
| Session_close (session : Session).

Definition Trace : Type := list Call.

(** The host the program runs on.  Answers may depend on everything that
    happened before.  [raises] is consulted for the calls to the engine and
    to the session: [create_engine], [Engine.connect], [Engine.dispose] and
    the three [Session] methods; the other calls return normally. *)
Record Host : Type := mkHost {
  installed_drivers : Trace -> list string;
  frozenset_first : gset string -> string;
  raises : Trace -> Call -> option exn
}.

(** ** The object and the monad *)

Record DatabaseConnection : Type := mkDatabaseConnection {
  _db : string;
  _host : string;
  _port : Z;
  _timeout : Z;
  _engine : option Engine;
  _session_maker : option sessionmaker
}.

Record State : Type := mkState {
  self : DatabaseConnection;
  trace : Trace
}.

Inductive Result (A : Type) : Type :=
| Return (a : A)
| Raise (e : exn).
Arguments Return {A} a.
Arguments Raise {A} e.

Definition M (A : Type) : Type := State -> Result A * State.

Definition ret {A} (a : A) : M A := fun s => (Return a, s).

Definition raise {A} (e : exn) : M A := fun s => (Raise e, s).

Definition bind_M {A B} (m : M A) (k : A -> M B) : M B :=
  fun s =>
    match m s with
    | (Return a, s') => k a s'
    | (Raise e, s') => (Raise e, s')
    end.

Declare Scope py_scope.
Delimit Scope py_scope with py.
Notation "x <- m ;; k" := (bind_M m (fun x => k))
  (at level 100, m at next level, right associativity) : py_scope.
Notation "m ;; k" := (bind_M m (fun _ => k))
  (at level 100, right associativity) : py_scope.
Local Open Scope py_scope.

(** [try: m  except classes as e: handler e].  An exception raised by the
    handler is not caught again. *)
Definition try_except {A} (m : M A) (classes : list PyClass) (handler : exn -> M A) : M A :=
  fun s =>
    match m s with
    | (Return a, s') => (Return a, s')
    | (Raise e, s') => if matches classes e then handler e s' else (Raise e, s')
    end.

(** [try: m  finally: cleanup].  The cleanup runs on every exit; an exception
    it raises takes the place of whatever [m] produced. *)
Definition try_finally {A} (m : M A) (cleanup : M unit) : M A :=
  fun s =>
    match m s with
    | (r, s') =>
        match cleanup s' with
        | (Return _, s'') => (r, s'')
        | (Raise e, s'') => (Raise e, s'')
        end
    end.

Definition get_self : M DatabaseConnection := fun s => (Return (self s), s).

Definition set_engine (e : option Engine) : M unit :=
  fun s =>
    (Return tt,
     {| self := {| _db := _db (self s); _host := _host (self s);
                   _port := _port (self s); _timeout := _timeout (self s);
                   _engine := e; _session_maker := _session_maker (self s) |};
        trace := trace s |}).

Definition set_session_maker (m : option sessionmaker) : M unit :=
  fun s =>
    (Return tt,
     {| self := {| _db := _db (self s); _host := _host (self s);
                   _port := _port (self s); _timeout := _timeout (self s);
                   _engine := _engine (self s); _session_maker := m |};
        trace := trace s |}).

Definition record_call (c : Call) (s : State) : State :=
  {| self := self s; trace := (trace s ++ [c])%list |}.

(** A call that always returns. *)
Definition call (c : Call) : M unit := fun s => (Return tt, record_call c s).

Section Program.

Variable host : Host.

(** A call that the host may make raise; the call is recorded either way. *)
Definition call_fallible (c : Call) : M unit :=
  fun s =>
    match raises host (trace s) c with
    | Some e => (Raise e, record_call c s)
    | None => (Return tt, record_call c s)
    end.

Definition call_pyodbc_drivers : M (list string) :=
  fun s => (Return (installed_drivers host (trace s)), record_call pyodbc_drivers s).

Definition call_create_engine (url : string) (fast : bool) (timeout : Z) : M Engine :=
  fun s =>
    match call_fallible (create_engine url fast timeout) s with
    | (Return _, s') =>
        (Return {| engine_id := length (trace s); engine_url := url;
                   engine_timeout := timeout |}, s')
    | (Raise e, s') => (Raise e, s')
    end.

Definition call_sessionmaker (engine : Engine) : M sessionmaker :=
  call (sessionmaker_new engine) ;; ret {| bind := engine |}.

Definition call_session_maker (maker : sessionmaker) : M Session :=
  fun s =>
    (Return {| session_id := length (trace s); session_bind := bind maker |},
     record_call (sessionmaker_call maker) s).

(** ** The class *)

Definition SUPPORTED_DRIVERS : gset string :=
  {[ "ODBC Driver 17 for SQL Server";
     "ODBC Driver 13 for SQL Server";
     "SQL Server Native Client 11.0" ]}.

Definition __init__ (db host_name : string) (port timeout : Z) : DatabaseConnection :=
  {| _db := db; _host := host_name; _port := port; _timeout := timeout;
     _engine := None; _session_maker := None |}.

Definition _get_available_driver : M string :=
  drivers <- call_pyodbc_drivers ;;
  let available_drivers : gset string := SUPPORTED_DRIVERS ∩ list_to_set drivers in
  if decide (available_drivers = ∅)
  then raise (Exn DatabaseConnectionError "No supported ODBC driver found." None)
  else ret (frozenset_first host available_drivers).

Definition _max_retries : Z := 3.
Definition _init_delay : Z := 1.
Definition _backoff_factor : Z := 2.

(** The expression bound to [delay] in the retry branch. *)
Definition delay (attempt : Z) : Z := _init_delay * _backoff_factor ^ attempt.

(** [range(n)] *)
Definition range (n : Z) : list Z := map Z.of_nat (seq 0 (Z.to_nat n)).

(** How one pass through the body of the [for] loop ends when it does not
    raise: by the [return] statement or by falling through to the next
    iteration. *)
Inductive LoopExit : Type := Returned | NextIteration.

Definition connection_string (c : DatabaseConnection) (driver : string) : string :=
  "mssql+pyodbc://" ++ _host c ++ ":" ++ pretty (_port c) ++ "/" ++ _db c ++ "?"
  ++ "driver=" ++ driver ++ "&trusted_connection=yes".

Definition attempt_try : M LoopExit :=
  driver <- _get_available_driver ;;
  c <- get_self ;;
  engine <- call_create_engine (connection_string c driver) true (_timeout c) ;;
  set_engine (Some engine) ;;
  maker <- call_sessionmaker engine ;;
  set_session_maker (Some maker) ;;
  call_fallible (Engine_connect engine) ;;
  call (print ("INFO: Connection to database successful. Host: " ++ _host c
               ++ ", Port: " ++ pretty (_port c) ++ ", Database: " ++ _db c)) ;;
  call (Connection_exit engine) ;;
  ret Returned.

Definition attempt_except (attempt : Z) (e : exn) : M LoopExit :=
  if attempt <? _max_retries - 1
  then
    call (print ("WARNING: Connection attempt " ++ pretty (attempt + 1)
                 ++ " failed. Retrying in " ++ pretty (delay attempt) ++ " seconds")) ;;
    call (sleep (delay attempt)) ;;
    ret NextIteration
  else
    call (print ("ERROR: Failed to connect to database after "
                 ++ pretty _max_retries ++ " attempts.")) ;;
    raise (Exn DatabaseConnectionError ("Failed to connect to database: " ++ str e) (Some e)).

Definition attempt_body (attempt : Z) : M LoopExit :=
  try_except attempt_try [OperationalError; SQLAlchemyError] (attempt_except attempt).

Fixpoint for_attempt (attempts : list Z) : M unit :=
  match attempts with
  | [] => ret tt
  | attempt :: rest =>
      exit <- attempt_body attempt ;;
      match exit with
      | Returned => ret tt
      | NextIteration => for_attempt rest
      end
  end.

Definition _init_connection : M unit := for_attempt (range _max_retries).

(** [with self.get_session() as session: body session].  The generator is
    resumed at its [yield] with the outcome of the body, so the body runs in
    the position of the [yield]. *)
Definition get_session {A} (body : Session -> M A) : M A :=
  c <- get_self ;;
  match _session_maker c with
  | None => raise (Exn DatabaseConnectionError "Database connection not initialised." None)
  | Some maker =>
      session <- call_session_maker maker ;;
      try_finally
        (try_except
           (a <- body session ;;
            call_fallible (Session_commit session) ;;
            ret a)
           [Exception]
           (fun e =>
              call_fallible (Session_rollback session) ;;
              call (print ("ERROR: Database session failed to commit: " ++ str e)) ;;
              raise e))
        (call_fallible (Session_close session))
  end.

Definition _close : M unit :=
  c <- get_self ;;
  match _engine c with
  | Some engine =>
      call_fallible (Engine_dispose engine) ;;
      set_engine None ;;
      call (print "INFO: Database connection closed.")
  | None => ret tt
  end.

(** [with DatabaseConnection.get_connection(db, host, port, timeout) as
    connection: body]; the body finds the connection in the state. *)
Definition get_connection_from {A} (body : M A) : M A :=
  _init_connection ;;
  try_finally
    (try_except body [Exception]
       (fun e =>
          call (print ("ERROR: Unexpected error occurred while connecting to database: "
                       ++ str e)) ;;
          raise e))
    _close.

Definition get_connection {A} (db host_name : string) (port timeout : Z)
    (body : M A) (before : Trace) : Result A * State :=
  get_connection_from body {| self := __init__ db host_name port timeout; trace := before |}.

End Program.

Arguments get_session host {A} body.
Arguments get_connection_from host {A} body.
Arguments get_connection host {A} db host_name port timeout body before.

(** ** Observations on traces and objects *)

Definition is_create_engine (c : Call) : bool :=
  match c with create_engine _ _ _ => true | _ => false end.

Definition is_connect (c : Call) : bool :=
  match c with Engine_connect _ => true | _ => false end.

Definition is_dispose (c : Call) : bool :=
  match c with Engine_dispose _ => true | _ => false end.

Definition is_commit (c : Call) : bool :=
  match c with Session_commit _ => true | _ => false end.

Definition is_rollback (c : Call) : bool :=
  match c with Session_rollback _ => true | _ => false end.

Definition is_session_close (c : Call) : bool :=
  match c with Session_close _ => true | _ => false end.

Definition count (p : Call -> bool) (calls : Trace) : nat := length (List.filter p calls).

(** The arguments of the [sleep] calls, in order. *)
Fixpoint sleeps (calls : Trace) : list Z :=
  match calls with
  | [] => []
  | sleep d :: rest => d :: sleeps rest
  | _ :: rest => sleeps rest
  end.

(** The manager holds what a successful [_init_connection] leaves: an
    engine handle and a session factory.  [Closed] is the state the
    constructor and a complete teardown leave: neither. *)
Definition Connected (c : DatabaseConnection) : Prop :=
  is_Some (_engine c) /\ is_Some (_session_maker c).

(** The object holds an engine and a session factory bound to that engine. *)
Definition holds_engine (c : DatabaseConnection) : Prop :=
  exists e, _engine c = Some e /\ _session_maker c = Some {| bind := e |}.

Definition Closed (c : DatabaseConnection) : Prop :=
  _engine c = None /\ _session_maker c = None.

(** An error the retry loop treats as transient: one its [except] clause
    catches. *)
Definition transient (e : exn) : bool := matches [OperationalError; SQLAlchemyError] e.

(** What [_close] adds to the trace, given the engine attribute it finds. *)
Definition close_calls (engine : option Engine) : Trace :=
  match engine with
  | Some e => [Engine_dispose e; print "INFO: Database connection closed."]
  | None => []
  end.

Definition with_engine (e : option Engine) (c : DatabaseConnection) : DatabaseConnection :=
  {| _db := _db c; _host := _host c; _port := _port c; _timeout := _timeout c;
     _engine := e; _session_maker := _session_maker c |}.

(** The line [get_connection] prints when its body raises an [Exception]. *)
Definition log_unexpected {A} (r : Result A) (s : State) : State :=
  match r with
  | Raise e =>
      if matches [Exception] e
      then record_call (print ("ERROR: Unexpected error occurred while connecting to database: "
                               ++ str e)) s
      else s
  | Return _ => s
  end.

(** The facade as the specification words it: the teardown also covers a
    failing initialisation.  Used only for comparison with
    [get_connection]. *)
Definition withConnection_spec (host : Host) {A} (db host_name : string) (port timeout : Z)
    (body : M A) (before : Trace) : Result A * State :=
  try_finally
    (_init_connection host ;;
     try_except body [Exception]
       (fun e =>
          call (print ("ERROR: Unexpected error occurred while connecting to database: "
                       ++ str e)) ;;
          raise e))
    (_close host)
    {| self := __init__ db host_name port timeout; trace := before |}.

(** ** Operations on one manager, for reachability *)

Inductive Op : Type :=
| op_init_connection
| op_get_session (body : Session -> M unit)
| op_close.

Definition run_op (host : Host) (o : Op) : M unit :=
  match o with
  | op_init_connection => _init_connection host
  | op_get_session body => get_session host body
  | op_close => _close host
  end.

(** The state after a sequence of calls; a call that raises leaves the
    object as it was when the exception left the method. *)
Definition run_ops (host : Host) (ops : list Op) (s : State) : State :=
  fold_left (fun s o => snd (run_op host o s)) ops s.

(** A body that uses the session it is given and leaves the manager's
    attributes alone. *)
Definition keeps_self (body : Session -> M unit) : Prop :=
  forall session s, self (snd (body session s)) = self s.

Definition keeps_self_op (o : Op) : Prop :=
  match o with
  | op_get_session body => keeps_self body
  | _ => True
  end.

(** ** Hosts used in the examples *)

Definition first_member (s : gset string) : string :=
  match elements s with
  | x :: _ => x
  | [] => ""
  end.

Definition mock_error : exn := Exn OperationalError "mock error" None.
Definition test_error : exn := Exn ValueError "Test error" None.
Definition rollback_error : exn := Exn OperationalError "rollback failed" None.
Definition interrupt : exn := Exn KeyboardInterrupt "" None.

(** The example scenario of the specification: driver 17 is installed and
    nothing fails. *)
Definition host_ok : Host :=
  {| installed_drivers := fun _ => ["ODBC Driver 17 for SQL Server"; "Other Driver"];
     frozenset_first := first_member;
     raises := fun _ _ => None |}.

(** No supported driver is installed. *)
Definition host_no_driver : Host :=
  {| installed_drivers := fun _ => ["Unsupported Driver"];
     frozenset_first := first_member;
     raises := fun _ _ => None |}.

(** The server is unreachable: engines are created, every probe fails. *)
Definition host_probe_fails : Host :=
  {| installed_drivers := fun _ => ["ODBC Driver 17 for SQL Server"];
     frozenset_first := first_member;
     raises := fun _ c => match c with Engine_connect _ => Some mock_error | _ => None end |}.

(** [create_engine] itself raises, as in the unit test of the retries. *)
Definition host_create_fails : Host :=
  {| installed_drivers := fun _ => ["ODBC Driver 17 for SQL Server"];
     frozenset_first := first_member;
     raises := fun _ c => match c with create_engine _ _ _ => Some mock_error | _ => None end |}.

(** Every [commit] fails. *)
Definition host_commit_fails : Host :=
  {| installed_drivers := fun _ => ["ODBC Driver 17 for SQL Server"];
     frozenset_first := first_member;
     raises := fun _ c => match c with Session_commit _ => Some mock_error | _ => None end |}.

(** Every [rollback] fails. *)
Definition host_rollback_fails : Host :=
  {| installed_drivers := fun _ => ["ODBC Driver 17 for SQL Server"];
     frozenset_first := first_member;
     raises := fun _ c => match c with Session_rollback _ => Some rollback_error | _ => None end |}.

(** Every [commit] and every [rollback] fails (the connection was lost). *)
Definition host_connection_lost : Host :=
  {| installed_drivers := fun _ => ["ODBC Driver 17 for SQL Server"];
     frozenset_first := first_member;
     raises := fun _ c =>
       match c with
       | Session_commit _ => Some mock_error
       | Session_rollback _ => Some rollback_error
       | _ => None
       end |}.

Definition fresh : State :=
  {| self := __init__ "sample" "localhost" 1433 30; trace := [] |}.

Definition sample_url : string :=
  "mssql+pyodbc://localhost:1433/sample?driver=ODBC Driver 17 for SQL Server&trusted_connection=yes".

Definition sample_engine (id : nat) : Engine :=
  {| engine_id := id; engine_url := sample_url; engine_timeout := 30 |}.

(** The manager after a successful [_init_connection] on [host_ok]. *)
Definition connected : State := snd (_init_connection host_ok fresh).

Definition no_driver_error : exn :=
  Exn DatabaseConnectionError "No supported ODBC driver found." None.

Definition not_initialised_error : exn :=
  Exn DatabaseConnectionError "Database connection not initialised." None.

(** The exception [_init_connection] raises when the last attempt failed
    with [e]: [raise DatabaseConnectionError(...) from e]. *)
Definition connection_failed (e : exn) : exn :=
  Exn DatabaseConnectionError ("Failed to connect to database: " ++ str e) (Some e).

(** The session the factory hands out when called in state [s]. *)
Definition new_session (s : State) (maker : sessionmaker) : Session :=
  {| session_id := length (trace s); session_bind := bind maker |}.

(** The line [get_session] prints after a rollback. *)
Definition commit_failure_line (e : exn) : Call :=
  print ("ERROR: Database session failed to commit: " ++ str e).

(** The calls made since the trace was [before]. *)
Definition new_calls (before : Trace) (s : State) : Trace :=
  skipn (length before) (trace s).

(** [next(iter(s))] yields a member of a non-empty set. *)
Definition iterates_members (host : Host) : Prop :=
  forall s : gset string, s <> ∅ -> frozenset_first host s ∈ s.



(** The factory and the session of the [connected] manager, and the state
    in which the body of a session scope opened on it starts. *)
Definition sample_maker : sessionmaker := {| bind := sample_engine 1 |}.

Definition sample_session : Session := new_session connected sample_maker.

Definition scope_entered : State := record_call (sessionmaker_call sample_maker) connected.

(** A manager that was connected and then closed. *)
Definition closed_after_use : State :=
  run_ops host_ok [op_init_connection; op_close] fresh.

(** A manager whose initialisation failed because the server was unreachable. *)
Definition failed_to_connect : State :=
  run_ops host_probe_fails [op_init_connection] fresh.

(** Whenever the object holds an engine, its factory is bound to it. *)
Definition maker_bound_to_engine (c : DatabaseConnection) : Prop :=
  forall e, _engine c = Some e -> _session_maker c = Some {| bind := e |}.

(** What one pass through the loop body may add, whatever the host does. *)
Record attempt_adds (attempt : Z) (exit : Result LoopExit) (suffix : Trace) : Prop := {
  adds_no_dispose : count is_dispose suffix = 0%nat;
  adds_one_engine_at_most : (count is_create_engine suffix <= 1)%nat;
  adds_sleep :
    sleeps suffix = match exit with Return NextIteration => [delay attempt] | _ => [] end;
  adds_retry_in_budget :
    exit = Return NextIteration -> attempt < _max_retries - 1
}.

(** ** Further observations *)

Definition is_drivers (c : Call) : bool :=
  match c with pyodbc_drivers => true | _ => false end.

Definition is_sleep (c : Call) : bool :=
  match c with sleep _ => true | _ => false end.

(** The skeleton of a run of the retry loop: the enumerations of the
    drivers, one at the start of each attempt, and the waits, in the order
    they were made. *)
Definition attempts_and_waits (calls : Trace) : Trace :=
  List.filter (fun c => is_drivers c || is_sleep c) calls.

(** The seconds spent in [sleep]. *)
Definition total_sleep (calls : Trace) : Z := fold_right Z.add 0 (sleeps calls).

(** What the constructor stores and no method writes. *)
Definition target (c : DatabaseConnection) : string * string * Z * Z :=
  (_db c, _host c, _port c, _timeout c).

(** A [create_engine] call is made with the arguments the manager [c]
    gives it: its own connection string for a supported driver,
    [fast_executemany=True] and its own timeout. *)
Definition created_for (c : DatabaseConnection) (call : Call) : Prop :=
  match call with
  | create_engine url fast timeout =>
      fast = true /\ timeout = _timeout c /\
      exists driver, driver ∈ SUPPORTED_DRIVERS /\ url = connection_string c driver
  | _ => True
  end.

Definition is_init_connection (o : Op) : bool :=
  match o with op_init_connection => true | _ => false end.

(** What a call returns to its caller on a manager that was only
    constructed, when it is not the initialisation. *)
Definition answer_before_init (o : Op) : Result unit :=
  match o with
  | op_get_session _ => Raise not_initialised_error
  | _ => Return tt
  end.

(** [app.main.main], with [session.execute] as the collaborator it is:
    [execute session statement] is whatever the session does with the
    statement, and returns what [print(result)] shows. *)
Definition main (host : Host) (execute : Session -> string -> M string)
    (before : Trace) : Result unit * State :=
  get_connection host "sample" "localhost" 1433 30
    (get_session host
       (fun session =>
          result <- execute session "SELECT 1" ;;
          call (print result)))
    before.

(** A collaborator that leaves the attributes of the manager alone. *)
Definition keeps_manager (execute : Session -> string -> M string) : Prop :=
  forall session statement s, self (snd (execute session statement s)) = self s.

(** The first creation is refused with an error that is not a connectivity
    error; a later one would go through. *)
Definition host_rejects_first_url : Host :=
  {| installed_drivers := fun _ => ["ODBC Driver 17 for SQL Server"];
     frozenset_first := first_member;
     raises := fun tr c =>
       match c with
       | create_engine _ _ _ =>
           if Nat.eqb (count is_create_engine tr) 0 then Some test_error else None
       | _ => None
       end |}.

(** The first creation fails with a connectivity error, the second attempt
    goes through, as in the unit test of one retry. *)
Definition host_recovers : Host :=
  {| installed_drivers := fun _ => ["ODBC Driver 17 for SQL Server"];
     frozenset_first := first_member;
     raises := fun tr c =>
       match c with
       | create_engine _ _ _ =>
           if Nat.eqb (count is_create_engine tr) 0 then Some mock_error else None
       | _ => None
       end |}.

(** The disposal of the engine fails. *)
Definition dispose_error : exn := Exn OperationalError "dispose failed" None.

Definition host_dispose_fails : Host :=
  {| installed_drivers := fun _ => ["ODBC Driver 17 for SQL Server"];
     frozenset_first := first_member;
     raises := fun _ c => match c with Engine_dispose _ => Some dispose_error | _ => None end |}.

(** A session whose [execute] records nothing and returns a rendering. *)
Definition execute_quietly (session : Session) (statement : string) : M string :=
  ret "<CursorResult>".

(** ** Proof steps *)

(** Unfold the combinators of the monad. *)
Ltac unfold_monad :=
  unfold bind_M, ret, raise, call, get_self, set_engine, set_session_maker,
    try_except, try_finally, record_call in *; simpl in *.

(** Close a goal [trace s' = trace s ++ ?suffix] after a run was unfolded. *)
Ltac trace_suffix :=
  unfold record_call; cbn [trace self fst snd]; rewrite <- ?app_assoc; cbn [app]; reflexivity.

(** Close the four facts of [attempt_adds]. *)
Ltac adds_facts :=
  split; cbn; try (reflexivity || lia || discriminate).

(** Unfold [get_session] down to the questions asked to the host. *)
Ltac run_session :=
  cbv beta iota zeta delta [get_session bind_M get_self call_session_maker try_finally
    try_except call_fallible call ret raise record_call new_session commit_failure_line
    fst snd]; cbn [self trace].

(** Show that the calls of one attempt are made for the manager's target,
    given the lemma on the resolved driver. *)
Ltac created_for_facts supported E :=
  intros Hiterates; repeat constructor;
  eexists; split; [apply (supported _ Hiterates E) | reflexivity].

(** The two closing steps of each exit path of a session scope. *)
Ltac close_is_last Eclose :=
  eexists; split; [reflexivity|];
  let e := fresh "e" in let H := fresh "H" in
  intros e H; cbn [trace self] in Eclose; congruence.

Ltac scope_leaf calls_app Eclose :=
  cbn [fst snd trace self];
  (erewrite calls_app by (rewrite <- ?app_assoc; cbn [app]; reflexivity));
  split; [reflexivity|]; split; [reflexivity|]; split; [reflexivity|];
  split; [reflexivity|]; split; [cbn; lia|]; close_is_last Eclose.

(** * Properties *)

(** ** Teardown: [_close] *)

(** [_close] as one case analysis: nothing to do without an engine; with
    one, the disposal is called, and only when it returns is the attribute
    cleared and the line printed. *)
Lemma _close_spec (host : Host) (s : State) :
  _close host s =
    match _engine (self s) with
    | None => (Return tt, s)
    | Some e =>
        match raises host (trace s) (Engine_dispose e) with
        | Some x => (Raise x, record_call (Engine_dispose e) s)
        | None =>
            (Return tt,
             {| self := with_engine None (self s);
                trace := (trace s ++ close_calls (Some e))%list |})
        end
    end.
Proof.
  unfold _close, call_fallible. unfold_monad.
  destruct (_engine (self s)) as [e|]; simpl; [|reflexivity].
  destruct (raises host (trace s) (Engine_dispose e)); simpl; [reflexivity|].
  unfold with_engine. rewrite <- app_assoc. reflexivity.
Qed.

(** A manager without an engine handle is left exactly as it is. *)
Lemma _close_noop (host : Host) (s : State) :
  _engine (self s) = None -> _close host s = (Return tt, s).
Proof. intros E. rewrite _close_spec, E. reflexivity. Qed.

(** When [_close] returns, the engine attribute is cleared. *)
Lemma _close_clears_engine (host : Host) (s : State) :
  fst (_close host s) = Return tt -> _engine (self (snd (_close host s))) = None.
Proof.
  rewrite _close_spec.
  destruct (_engine (self s)) as [e|] eqn:E; [|intros _; exact E].
  destruct (raises host (trace s) (Engine_dispose e)); [discriminate | reflexivity].
Qed.

(** When it raises, the object is untouched. *)
Lemma _close_raises_keeps_self (host : Host) (s : State) (x : exn) :
  fst (_close host s) = Raise x -> self (snd (_close host s)) = self s.
Proof.
  rewrite _close_spec.
  destruct (_engine (self s)) as [e|]; [|discriminate].
  destruct (raises host (trace s) (Engine_dispose e)); [reflexivity | discriminate].
Qed.

(** After a call that returned, a second call changes nothing. *)
Lemma _close_idempotent (host : Host) (s : State) :
  fst (_close host s) = Return tt ->
  _close host (snd (_close host s)) = (Return tt, snd (_close host s)).
Proof. intros H. apply _close_noop, _close_clears_engine, H. Qed.

Lemma count_app (p : Call -> bool) (a b : Trace) :
  count p (a ++ b)%list = (count p a + count p b)%nat.
Proof. unfold count. now rewrite List.filter_app, length_app. Qed.

(** One call disposes at most once. *)
Lemma _close_disposes_at_most_once (host : Host) (s : State) :
  exists suffix,
    trace (snd (_close host s)) = (trace s ++ suffix)%list /\
    (count is_dispose suffix <= 1)%nat.
Proof.
  rewrite _close_spec.
  destruct (_engine (self s)) as [e|];
    [destruct (raises host (trace s) (Engine_dispose e)) |].
  - exists [Engine_dispose e]. split; [reflexivity | unfold count; cbn; lia].
  - eexists. split; [reflexivity | unfold count; cbn; lia].
  - exists []. split; [now rewrite app_nil_r | unfold count; cbn; lia].
Qed.

(** The session factory is not an attribute [_close] writes. *)
Lemma _close_keeps_session_maker (host : Host) (s : State) :
  _session_maker (self (snd (_close host s))) = _session_maker (self s).
Proof.
  rewrite _close_spec.
  destruct (_engine (self s)) as [e|];
    [destruct (raises host (trace s) (Engine_dispose e)) |]; reflexivity.
Qed.

(** Nor are the attributes the constructor stored. *)
Lemma _close_keeps_target (host : Host) (s : State) :
  target (self (snd (_close host s))) = target (self s).
Proof.
  rewrite _close_spec.
  destruct (_engine (self s)) as [e|];
    [destruct (raises host (trace s) (Engine_dispose e)) |]; reflexivity.
Qed.

(** ** One connection attempt *)

Section Attempts.

Variable host : Host.

Lemma _get_available_driver_eq (s : State) :
  _get_available_driver host s =
    let available := SUPPORTED_DRIVERS ∩ list_to_set (installed_drivers host (trace s)) in
    (if decide (available = ∅) then Raise no_driver_error
     else Return (frozenset_first host available),
     record_call pyodbc_drivers s).
Proof.
  unfold _get_available_driver, call_pyodbc_drivers, bind_M. cbn zeta.
  destruct (decide _); reflexivity.
Qed.

(** The body of the [try], as one case analysis on what the host answers. *)
Lemma attempt_try_eq (s : State) :
  attempt_try host s =
    let s1 := record_call pyodbc_drivers s in
    let available := SUPPORTED_DRIVERS ∩ list_to_set (installed_drivers host (trace s)) in
    if decide (available = ∅) then (Raise no_driver_error, s1)
    else
      let url := connection_string (self s) (frozenset_first host available) in
      let creation := create_engine url true (_timeout (self s)) in
      let s2 := record_call creation s1 in
      match raises host (trace s1) creation with
      | Some e => (Raise e, s2)
      | None =>
          let engine := {| engine_id := length (trace s1); engine_url := url;
                           engine_timeout := _timeout (self s) |} in
          let s3 := {| self := {| _db := _db (self s); _host := _host (self s);
                                  _port := _port (self s); _timeout := _timeout (self s);
                                  _engine := Some engine;
                                  _session_maker := Some {| bind := engine |} |};
                       trace := (trace s2 ++ [sessionmaker_new engine])%list |} in
          let s4 := record_call (Engine_connect engine) s3 in
          match raises host (trace s3) (Engine_connect engine) with
          | Some e => (Raise e, s4)
          | None =>
              (Return Returned,
               record_call (Connection_exit engine)
                 (record_call
                    (print ("INFO: Connection to database successful. Host: " ++ _host (self s)
                            ++ ", Port: " ++ pretty (_port (self s)) ++ ", Database: "
                            ++ _db (self s))) s4))
          end
      end.
Proof.
  unfold attempt_try. unfold bind_M at 1. rewrite _get_available_driver_eq. cbn zeta.
  destruct (decide _) as [E|E]; [reflexivity|].
  cbv beta iota zeta delta [bind_M get_self call_create_engine call_sessionmaker
    call_fallible call set_engine set_session_maker ret record_call self trace fst snd
    _db _host _port _timeout _engine _session_maker].
  destruct (raises host _ (create_engine _ _ _)); [reflexivity|].
  destruct (raises host _ (Engine_connect _)); reflexivity.
Qed.

(** The driver that is resolved is a supported one that is installed. *)
Lemma resolved_driver_is_supported_and_installed (s s' : State) (driver : string) :
  iterates_members host ->
  _get_available_driver host s = (Return driver, s') ->
  driver ∈ SUPPORTED_DRIVERS /\ driver ∈ installed_drivers host (trace s).
Proof.
  intros Hiter. rewrite _get_available_driver_eq. cbv zeta.
  destruct (decide _) as [E|E]; [discriminate|].
  intros H. inversion H; subst.
  specialize (Hiter _ E). set_solver.
Qed.

(** The [except] clause, for an error it catches. *)
Lemma attempt_except_eq (attempt : Z) (e : exn) (s : State) :
  attempt_except attempt e s =
    if attempt <? _max_retries - 1
    then (Return NextIteration,
          record_call (sleep (delay attempt))
            (record_call
               (print ("WARNING: Connection attempt " ++ pretty (attempt + 1)
                       ++ " failed. Retrying in " ++ pretty (delay attempt) ++ " seconds")) s))
    else (Raise (connection_failed e),
          record_call
            (print ("ERROR: Failed to connect to database after "
                    ++ pretty _max_retries ++ " attempts.")) s).
Proof. unfold attempt_except. destruct (attempt <? _max_retries - 1); reflexivity. Qed.

Lemma attempt_body_eq (attempt : Z) (s : State) :
  attempt_body host attempt s =
    match attempt_try host s with
    | (Return exit, s') => (Return exit, s')
    | (Raise e, s') => if transient e then attempt_except attempt e s' else (Raise e, s')
    end.
Proof. reflexivity. Qed.

End Attempts.

(** ** What a run adds to the trace *)

Lemma sleeps_app (a b : Trace) : sleeps (a ++ b)%list = (sleeps a ++ sleeps b)%list.
Proof.
  induction a as [|c a IH]; [reflexivity|].
  destruct c; simpl; rewrite IH; reflexivity.
Qed.

Lemma new_calls_app (before suffix : Trace) (s : State) :
  trace s = (before ++ suffix)%list -> new_calls before s = suffix.
Proof.
  intros E. unfold new_calls. rewrite E.
  rewrite skipn_app, skipn_all, Nat.sub_diag. reflexivity.
Qed.

Section Runs.

Variable host : Host.


Lemma attempt_body_adds (attempt : Z) (s : State) :
  exists suffix,
    trace (snd (attempt_body host attempt s)) = (trace s ++ suffix)%list /\
    attempt_adds attempt (fst (attempt_body host attempt s)) suffix.
Proof.
  rewrite attempt_body_eq, attempt_try_eq. cbv zeta.
  destruct (decide _) as [E|E]; [eexists; split; [trace_suffix | adds_facts] |].
  destruct (raises host _ (create_engine _ _ _)) as [e|].
  { destruct (transient e); [rewrite attempt_except_eq;
                             destruct (attempt <? _max_retries - 1) eqn:B |];
      (eexists; split; [trace_suffix | adds_facts]). }
  destruct (raises host _ (Engine_connect _)) as [e|].
  { destruct (transient e); [rewrite attempt_except_eq;
                             destruct (attempt <? _max_retries - 1) eqn:B |];
      (eexists; split; [trace_suffix | adds_facts]). }
  eexists; split; [trace_suffix | adds_facts].
Qed.

(** The loop: the waits are the delays of the attempts that were retried,
    which form an initial stretch of the attempt indices. *)
Lemma for_attempt_adds (attempts : list Z) (s : State) :
  exists suffix retried rest,
    trace (snd (for_attempt host attempts s)) = (trace s ++ suffix)%list /\
    attempts = (retried ++ rest)%list /\
    sleeps suffix = map delay retried /\
    Forall (fun a => a < _max_retries - 1) retried /\
    count is_dispose suffix = 0%nat /\
    (count is_create_engine suffix <= length attempts)%nat.
Proof.
  revert s. induction attempts as [|attempt attempts IH]; intros s.
  { exists [], [], []. cbn. rewrite app_nil_r. repeat split; auto. }
  cbn [for_attempt]. unfold bind_M.
  destruct (attempt_body_adds attempt s) as (suffix & Etrace & Hadds).
  destruct (attempt_body host attempt s) as [[exit|e] s1]; cbn [fst snd] in *.
  - destruct exit.
    + exists suffix, [], (attempt :: attempts). cbn [ret snd].
      destruct Hadds as [Hd Hc Hs _].
      repeat split; auto. cbn [length]. lia.
    + destruct (IH s1) as (suffix' & retried & rest & Etrace' & Esplit & Hs' & Hall & Hd' & Hc').
      exists (suffix ++ suffix')%list, (attempt :: retried), rest.
      destruct Hadds as [Hd Hc Hs Hb].
      rewrite Etrace', Etrace, app_assoc, sleeps_app, !count_app, Hs, Hs', Hd, Hd'.
      repeat split.
      * now rewrite Esplit.
      * constructor; auto.
      * cbn [length]. lia.
  - exists suffix, [], (attempt :: attempts). cbn [snd].
    destruct Hadds as [Hd Hc Hs _].
    repeat split; auto. cbn [length]. lia.
Qed.

(** [_init_connection] creates at most three engines, disposes none, and
    waits [delay 0], [delay 1], ... for as many retries as it makes. *)
Lemma _init_connection_adds (s : State) :
  exists suffix retries,
    trace (snd (_init_connection host s)) = (trace s ++ suffix)%list /\
    (retries <= 2)%nat /\
    sleeps suffix = map delay (map Z.of_nat (seq 0 retries)) /\
    count is_dispose suffix = 0%nat /\
    (count is_create_engine suffix <= 3)%nat.
Proof.
  destruct (for_attempt_adds (range _max_retries) s)
    as (suffix & retried & rest & Etrace & Esplit & Hs & Hall & Hd & Hc).
  exists suffix.
  change (range _max_retries) with [0; 1; 2] in Esplit.
  assert (Hcases : retried = [] \/ retried = [0] \/ retried = [0; 1]).
  { destruct retried as [|a [|b [|c r]]]; auto;
      cbn in Esplit; inversion Esplit; subst; auto.
    exfalso. inversion Hall as [|? ? _ Hall']. inversion Hall' as [|? ? _ Hall''].
    inversion Hall'' as [|? ? Hlt _]. unfold _max_retries in Hlt. lia. }
  destruct Hcases as [-> | [-> | ->]];
    [exists 0%nat | exists 1%nat | exists 2%nat];
    (split; [exact Etrace | split; [lia | split; [exact Hs | split; [exact Hd | exact Hc]]]]).
Qed.

End Runs.

(** ** Backoff *)

Lemma delay_eq (attempt : Z) : delay attempt = 2 ^ attempt.
Proof. unfold delay, _init_delay, _backoff_factor. lia. Qed.

(** ** Driver resolution *)

(** C5. When no supported driver is among the installed ones,
    [_init_connection] raises the "No supported ODBC driver found." error
    at once: the only call it makes is the enumeration of the drivers, so
    no engine is created, no connection is probed and nothing is waited
    for; the object is untouched. *)
Theorem no_driver_fails_without_attempt (host : Host) (s : State) :
  SUPPORTED_DRIVERS ## (list_to_set (installed_drivers host (trace s)) : gset string) ->
  _init_connection host s = (Raise no_driver_error, record_call pyodbc_drivers s) /\
  new_calls (trace s) (snd (_init_connection host s)) = [pyodbc_drivers] /\
  count is_create_engine (new_calls (trace s) (snd (_init_connection host s))) = 0%nat /\
  count is_connect (new_calls (trace s) (snd (_init_connection host s))) = 0%nat /\
  sleeps (new_calls (trace s) (snd (_init_connection host s))) = [] /\
  self (snd (_init_connection host s)) = self s.
Proof.
  intros Hdisjoint. apply disjoint_intersection_L in Hdisjoint.
  assert (E : _init_connection host s = (Raise no_driver_error, record_call pyodbc_drivers s)).
  { unfold _init_connection. change (range _max_retries) with [0; 1; 2].
    cbn [for_attempt]. unfold bind_M.
    rewrite attempt_body_eq, attempt_try_eq. cbv zeta.
    destruct (decide _) as [_|Hne]; [reflexivity | contradiction]. }
  rewrite E. cbn [snd].
  rewrite (new_calls_app (trace s) [pyodbc_drivers]) by reflexivity.
  repeat split.
Qed.

Lemma no_driver_fails_without_attempt_witness :
  _init_connection host_no_driver fresh
  = (Raise no_driver_error, record_call pyodbc_drivers fresh) /\
  new_calls (trace fresh) (snd (_init_connection host_no_driver fresh)) = [pyodbc_drivers] /\
  count is_create_engine (new_calls (trace fresh) (snd (_init_connection host_no_driver fresh)))
  = 0%nat /\
  count is_connect (new_calls (trace fresh) (snd (_init_connection host_no_driver fresh)))
  = 0%nat /\
  sleeps (new_calls (trace fresh) (snd (_init_connection host_no_driver fresh))) = [] /\
  self (snd (_init_connection host_no_driver fresh)) = self fresh.
Proof.
  apply (no_driver_fails_without_attempt host_no_driver fresh).
  apply disjoint_intersection_L. vm_compute. reflexivity.
Defined.

(** ** The retry loop *)

Section Retries.

Variable host : Host.

(** Whatever happens in one pass, the object is either as before or holds a
    newly created engine together with a factory bound to it. *)
Lemma attempt_body_self (attempt : Z) (s : State) :
  self (snd (attempt_body host attempt s)) = self s \/
  holds_engine (self (snd (attempt_body host attempt s))).
Proof.
  rewrite attempt_body_eq, attempt_try_eq. cbv zeta.
  destruct (decide _) as [E|E]; [left; reflexivity|].
  destruct (raises host _ (create_engine _ _ _)) as [e|].
  { left. destruct (transient e); [rewrite attempt_except_eq;
                                   destruct (attempt <? _max_retries - 1) |]; reflexivity. }
  right.
  destruct (raises host _ (Engine_connect _)) as [e|];
    [destruct (transient e); [rewrite attempt_except_eq;
                              destruct (attempt <? _max_retries - 1) |] |];
    (eexists; split; reflexivity).
Qed.

(** A pass that ends by [return] has set both attributes. *)
Lemma attempt_body_returned (attempt : Z) (s s' : State) :
  attempt_body host attempt s = (Return Returned, s') -> holds_engine (self s').
Proof.
  rewrite attempt_body_eq, attempt_try_eq. cbv zeta.
  destruct (decide _) as [E|E]; [discriminate|].
  destruct (raises host _ (create_engine _ _ _)) as [e|].
  { destruct (transient e); [rewrite attempt_except_eq;
                             destruct (attempt <? _max_retries - 1) |]; discriminate. }
  destruct (raises host _ (Engine_connect _)) as [e|].
  { destruct (transient e); [rewrite attempt_except_eq;
                             destruct (attempt <? _max_retries - 1) |]; discriminate. }
  intros H. inversion H. eexists; split; reflexivity.
Qed.

Lemma for_attempt_self (attempts : list Z) (s : State) :
  self (snd (for_attempt host attempts s)) = self s \/
  holds_engine (self (snd (for_attempt host attempts s))).
Proof.
  revert s. induction attempts as [|attempt attempts IH]; intros s; [left; reflexivity|].
  cbn [for_attempt]. unfold bind_M.
  pose proof (attempt_body_self attempt s) as Hbody.
  destruct (attempt_body host attempt s) as [[[|]|e] s1]; cbn [snd ret] in *; auto.
  destruct (IH s1) as [Hsame | Hholds]; [|right; exact Hholds].
  rewrite Hsame. exact Hbody.
Qed.

(** A loop that returns normally either returned from a pass, with both
    attributes set, or ran out of attempts, each of which was retried. *)
Lemma for_attempt_returns (attempts : list Z) (s s' : State) :
  for_attempt host attempts s = (Return tt, s') ->
  holds_engine (self s') \/ Forall (fun a => a < _max_retries - 1) attempts.
Proof.
  revert s. induction attempts as [|attempt attempts IH]; intros s; [right; constructor|].
  cbn [for_attempt]. unfold bind_M.
  destruct (attempt_body_adds host attempt s) as (suffix & _ & Hadds).
  destruct (attempt_body host attempt s) as [[[|]|e] s1] eqn:Ebody; cbn [fst] in Hadds.
  - intros H. inversion H; subst. left. eapply attempt_body_returned, Ebody.
  - intros H. destruct (IH _ H) as [Hholds | Hall]; [left; exact Hholds|].
    right. constructor; [|exact Hall]. now apply (adds_retry_in_budget _ _ _ Hadds).
  - discriminate.
Qed.

(** A successful [_init_connection] leaves an engine and a factory bound to it. *)
Lemma _init_connection_connects (s s' : State) :
  _init_connection host s = (Return tt, s') -> holds_engine (self s').
Proof.
  intros H. destruct (for_attempt_returns _ _ _ H) as [Hholds | Hall]; [exact Hholds|].
  exfalso. change (range _max_retries) with [0; 1; 2] in Hall.
  inversion Hall as [|? ? _ Hall']. inversion Hall' as [|? ? _ Hall''].
  inversion Hall'' as [|? ? Hlt _]. unfold _max_retries in Hlt. lia.
Qed.

(** A failing one leaves the object as it was or with the engine and the
    factory of some attempt. *)
Lemma _init_connection_self (s : State) :
  self (snd (_init_connection host s)) = self s \/
  holds_engine (self (snd (_init_connection host s))).
Proof. apply for_attempt_self. Qed.



End Retries.

(** ** Session scopes: [get_session] *)

Section Sessions.

Variable host : Host.
Context {A : Type}.
Variable body : Session -> M A.

(** Without a session factory the body is never entered. *)
Lemma get_session_not_initialised (s : State) :
  _session_maker (self s) = None ->
  get_session host body s = (Raise not_initialised_error, s).
Proof. intros E. run_session. rewrite E. reflexivity. Qed.

(** C9, amended. When the body completes without error and [commit()]
    returns, the scope calls [commit()] and then [close()] on the session,
    once each and in that order, and never [rollback()]; the caller gets the
    body's result unless [close()] itself raises. *)
Theorem completing_body_is_committed (s : State) (maker : sessionmaker) (a : A) (s2 : State) :
  _session_maker (self s) = Some maker ->
  body (new_session s maker) (record_call (sessionmaker_call maker) s) = (Return a, s2) ->
  raises host (trace s2) (Session_commit (new_session s maker)) = None ->
  let session := new_session s maker in
  let out := get_session host body s in
  new_calls (trace s2) (snd out) = [Session_commit session; Session_close session] /\
  count is_commit (new_calls (trace s2) (snd out)) = 1%nat /\
  count is_session_close (new_calls (trace s2) (snd out)) = 1%nat /\
  count is_rollback (new_calls (trace s2) (snd out)) = 0%nat /\
  self (snd out) = self s2 /\
  fst out = match raises host (trace s2 ++ [Session_commit session])%list (Session_close session) with
            | Some e => Raise e
            | None => Return a
            end.
Proof.
  intros Emaker Ebody Ecommit session out.
  assert (Eout : trace (snd out) = (trace s2 ++ [Session_commit session; Session_close session])%list
                 /\ self (snd out) = self s2
                 /\ fst out = match raises host (trace s2 ++ [Session_commit session])%list
                                      (Session_close session) with
                              | Some e => Raise e
                              | None => Return a
                              end).
  { subst out session. revert Ebody Ecommit. run_session. rewrite Emaker.
    intros -> ->. cbv beta iota.
    destruct (raises host _ (Session_close _)); cbn [fst snd trace self];
      rewrite <- app_assoc; repeat split. }
  destruct Eout as (Etrace & Eself & Eres).
  rewrite (new_calls_app _ _ _ Etrace). repeat split; assumption.
Qed.

(** C8, amended. When the body raises an [Exception], the scope calls
    [rollback()] once and [close()] once on the session and never
    [commit()], whatever these two calls do; when neither of them raises,
    the caller gets the body's exception itself. *)
Theorem raising_body_is_rolled_back (s : State) (maker : sessionmaker) (e : exn) (s2 : State) :
  _session_maker (self s) = Some maker ->
  body (new_session s maker) (record_call (sessionmaker_call maker) s) = (Raise e, s2) ->
  isinstance e Exception = true ->
  let session := new_session s maker in
  let out := get_session host body s in
  count is_rollback (new_calls (trace s2) (snd out)) = 1%nat /\
  count is_session_close (new_calls (trace s2) (snd out)) = 1%nat /\
  count is_commit (new_calls (trace s2) (snd out)) = 0%nat /\
  self (snd out) = self s2 /\
  (raises host (trace s2) (Session_rollback session) = None ->
   raises host (trace s2 ++ [Session_rollback session; commit_failure_line e])%list
     (Session_close session) = None ->
   fst out = Raise e /\
   new_calls (trace s2) (snd out)
   = [Session_rollback session; commit_failure_line e; Session_close session]).
Proof.
  intros Emaker Ebody Eclass session out.
  assert (Hmatch : matches [Exception] e = true).
  { unfold matches. cbn [existsb]. rewrite Eclass. reflexivity. }
  subst out session. revert Ebody. run_session. rewrite Emaker.
  intros ->. cbv beta iota. rewrite Hmatch.
  destruct (raises host (trace s2) (Session_rollback _)) as [e2|] eqn:Erollback; cbv beta iota.
  - destruct (raises host _ (Session_close _)) as [e3|]; cbn [fst snd trace self];
      (erewrite new_calls_app by (rewrite <- ?app_assoc; cbn [app]; reflexivity));
      (do 4 (split; [reflexivity|])); discriminate.
  - destruct (raises host _ (Session_close _)) as [e3|] eqn:Eclose; cbn [fst snd trace self];
      (erewrite new_calls_app by (rewrite <- ?app_assoc; cbn [app]; reflexivity));
      (do 4 (split; [reflexivity|])); intros _ Hclose;
      cbn [trace self] in Eclose; rewrite <- ?app_assoc in Eclose; cbn [app] in Eclose.
    + congruence.
    + split; reflexivity.
Qed.

(** C10, amended. When the body completes without error and [commit()]
    raises an [Exception], the scope calls [rollback()] once and then
    [close()] once, whatever these two calls do; when neither of them
    raises, the caller gets the exception of [commit()]. *)
Theorem failing_commit_is_rolled_back
    (s : State) (maker : sessionmaker) (a : A) (s2 : State) (e : exn) :
  _session_maker (self s) = Some maker ->
  body (new_session s maker) (record_call (sessionmaker_call maker) s) = (Return a, s2) ->
  raises host (trace s2) (Session_commit (new_session s maker)) = Some e ->
  isinstance e Exception = true ->
  let session := new_session s maker in
  let out := get_session host body s in
  count is_commit (new_calls (trace s2) (snd out)) = 1%nat /\
  count is_rollback (new_calls (trace s2) (snd out)) = 1%nat /\
  count is_session_close (new_calls (trace s2) (snd out)) = 1%nat /\
  self (snd out) = self s2 /\
  (raises host (trace s2 ++ [Session_commit session])%list (Session_rollback session) = None ->
   raises host (trace s2 ++ [Session_commit session; Session_rollback session;
                             commit_failure_line e])%list
     (Session_close session) = None ->
   fst out = Raise e /\
   new_calls (trace s2) (snd out)
   = [Session_commit session; Session_rollback session; commit_failure_line e;
      Session_close session]).
Proof.
  intros Emaker Ebody Ecommit Eclass session out.
  assert (Hmatch : matches [Exception] e = true).
  { unfold matches. cbn [existsb]. rewrite Eclass. reflexivity. }
  subst out session. revert Ebody Ecommit. run_session. rewrite Emaker.
  intros -> ->. cbv beta iota. rewrite Hmatch.
  destruct (raises host _ (Session_rollback _)) as [e2|] eqn:Erollback; cbv beta iota.
  - destruct (raises host _ (Session_close _)) as [e3|]; cbn [fst snd trace self];
      (erewrite new_calls_app by (rewrite <- ?app_assoc; cbn [app]; reflexivity));
      (do 4 (split; [reflexivity|])); intros Hrollback; congruence.
  - destruct (raises host _ (Session_close _)) as [e3|] eqn:Eclose; cbn [fst snd trace self];
      (erewrite new_calls_app by (rewrite <- ?app_assoc; cbn [app]; reflexivity));
      (do 4 (split; [reflexivity|])); intros _ Hclose;
      cbn [trace self] in Eclose; rewrite <- ?app_assoc in Eclose; cbn [app] in Eclose.
    + congruence.
    + split; reflexivity.
Qed.

End Sessions.

(** [get_session] does not write any attribute of the manager. *)
Lemma get_session_keeps_self (host : Host) (body : Session -> M unit) (s : State) :
  keeps_self body -> self (snd (get_session host body s)) = self s.
Proof.
  intros Hbody. run_session.
  destruct (_session_maker (self s)) as [maker|]; [|reflexivity].
  match goal with |- context [body ?session ?st] =>
    pose proof (Hbody session st) as Hself; destruct (body session st) as [[a|e] s2] end;
    cbn [snd self] in Hself.
  - destruct (raises host _ (Session_commit _)) as [e|]; cbv beta iota.
    + destruct (matches [Exception] e); cbv beta iota;
        [destruct (raises host _ (Session_rollback _)); cbv beta iota |];
        destruct (raises host _ (Session_close _)); exact Hself.
    + destruct (raises host _ (Session_close _)); exact Hself.
  - destruct (matches [Exception] e); cbv beta iota;
      [destruct (raises host _ (Session_rollback _)); cbv beta iota |];
      destruct (raises host _ (Session_close _)); exact Hself.
Qed.

(** ** Reachable states *)

(** One half of the invariant holds in every state a sequence of calls can
    reach: an engine handle never exists without a factory bound to it. *)
Lemma run_op_maker_bound (host : Host) (o : Op) (s : State) :
  keeps_self_op o ->
  maker_bound_to_engine (self s) ->
  maker_bound_to_engine (self (snd (run_op host o s))).
Proof.
  intros Hop Hs. destruct o as [|body|]; cbn [run_op].
  - destruct (_init_connection_self host s) as [-> | (e & He & Hm)]; [exact Hs|].
    intros e' He'. congruence.
  - rewrite get_session_keeps_self by exact Hop. exact Hs.
  - rewrite _close_spec.
    destruct (_engine (self s)) as [e0|] eqn:E0;
      [destruct (raises host (trace s) (Engine_dispose e0)) |]; cbn [snd].
    + exact Hs.
    + intros e He. discriminate.
    + exact Hs.
Qed.

Lemma reachable_maker_bound (host : Host) (ops : list Op) (s : State) :
  Forall keeps_self_op ops ->
  maker_bound_to_engine (self s) ->
  maker_bound_to_engine (self (run_ops host ops s)).
Proof.
  intros Hops. revert s. unfold run_ops.
  induction Hops as [|o ops Ho _ IH]; intros s Hs; [exact Hs|].
  cbn [fold_left]. apply IH, run_op_maker_bound; assumption.
Qed.

(** ** The facade: [get_connection] *)

(** C1, amended. [get_connection] first runs [_init_connection] on a new
    object.  If that raises, the exception goes to the caller as it is, the
    body is not run and [_close] is not called: the state is the one
    [_init_connection] left, and no engine was disposed.  If it returns,
    the body runs, and whatever the body does, [_close] then runs once on
    the state the body left (after the error line, when the body raised an
    [Exception]).  When the manager then holds no engine, or the disposal
    of its engine returns, the caller gets the body's own result or
    exception, and the engine attribute is cleared after the one disposal.
    When the disposal raises, its exception is what the caller gets in
    place of the body's outcome, and the engine attribute stays set. *)
Theorem get_connection_teardown {A : Type} (host : Host) (db host_name : string)
    (port timeout : Z) (body : M A) (before : Trace) :
  let s0 := {| self := __init__ db host_name port timeout; trace := before |} in
  let out := get_connection host db host_name port timeout body before in
  match _init_connection host s0 with
  | (Raise e, s1) =>
      out = (Raise e, s1) /\ count is_dispose (new_calls before s1) = 0%nat
  | (Return _, s1) =>
      let s2 := log_unexpected (fst (body s1)) (snd (body s1)) in
      snd out = snd (_close host s2) /\
      (count is_dispose (new_calls (trace s2) (snd out)) <= 1)%nat /\
      match _engine (self s2) with
      | None => out = (fst (body s1), s2)
      | Some engine =>
          match raises host (trace s2) (Engine_dispose engine) with
          | None =>
              out = (fst (body s1),
                     {| self := with_engine None (self s2);
                        trace := (trace s2 ++ [Engine_dispose engine;
                                               print "INFO: Database connection closed."])%list |})
              /\ _engine (self (snd out)) = None
          | Some x =>
              out = (Raise x,
                     {| self := self s2;
                        trace := (trace s2 ++ [Engine_dispose engine])%list |})
              /\ _engine (self (snd out)) = Some engine
          end
      end
  end.
Proof.
  intros s0 out.
  destruct (_init_connection_adds host s0) as (suffix & _ & Etrace & _ & _ & Hd & _).
  assert (Eout : out = match _init_connection host s0 with
                       | (Raise e, s1) => (Raise e, s1)
                       | (Return _, s1) =>
                           let s2 := log_unexpected (fst (body s1)) (snd (body s1)) in
                           (match fst (_close host s2) with
                            | Return _ => fst (body s1)
                            | Raise x => Raise x
                            end,
                            snd (_close host s2))
                       end).
  { subst out. unfold get_connection, get_connection_from. fold s0.
    unfold bind_M at 1.
    destruct (_init_connection host s0) as [[[]|e] s1]; [|reflexivity].
    unfold try_finally, try_except. cbv zeta.
    destruct (body s1) as [[a|e] s2]; cbn [fst snd log_unexpected].
    - destruct (_close host s2) as [[[]|x] s3]; reflexivity.
    - destruct (matches [Exception] e); unfold bind_M, call, raise;
        match goal with |- context [_close host ?st] =>
          destruct (_close host st) as [[[]|x] s3] end; reflexivity. }
  destruct (_init_connection host s0) as [[[]|e] s1]; cbn [snd] in Etrace.
  - cbv zeta in Eout |- *. rewrite Eout. cbn [fst snd].
    split; [reflexivity|].
    split.
    { destruct (_close_disposes_at_most_once host
                  (log_unexpected (fst (body s1)) (snd (body s1)))) as (x & Ex & Hx).
      rewrite (new_calls_app _ _ _ Ex). exact Hx. }
    rewrite _close_spec.
    destruct (_engine (self (log_unexpected (fst (body s1)) (snd (body s1))))) as [engine|] eqn:E.
    + destruct (raises host _ (Engine_dispose engine)); cbn [fst snd];
        (split; [reflexivity|]); [exact E | reflexivity].
    + reflexivity.
  - split; [exact Eout|].
    change before with (trace s0). rewrite (new_calls_app _ _ _ Etrace). exact Hd.
Qed.

(** The comparison with the facade of the specification, at a host whose
    server is unreachable: [get_connection] hands the initialisation error
    to the caller with the third engine still held and never disposed,
    where a teardown covering the initialisation would have disposed it; a
    call of [_close] in that state is not a no-op. *)
Lemma get_connection_skips_close_when_init_fails :
  let out := get_connection host_probe_fails "sample" "localhost" 1433 30 (ret tt) [] in
  let spec := withConnection_spec host_probe_fails "sample" "localhost" 1433 30 (ret tt) [] in
  fst out = Raise (connection_failed mock_error) /\
  _engine (self (snd out)) = Some (sample_engine 13) /\
  count is_dispose (trace (snd out)) = 0%nat /\
  snd (_close host_probe_fails (snd out)) <> snd out /\
  _engine (self (snd spec)) = None /\
  count is_dispose (trace (snd spec)) = 1%nat /\
  out <> spec.
Proof.
  cbv zeta. repeat split; try (vm_compute; reflexivity); vm_compute; discriminate.
Qed.

(** ** The defect in the teardown, on concrete runs *)

(** C4. On the connected manager [_close] returns normally, disposes the
    live engine once, clears the engine attribute, and a second call
    changes nothing; but on no state and no host does it clear the session
    factory: after closing a connected manager the factory is still
    there. *)
Theorem close_leaves_session_maker :
  (forall host s, _session_maker (self (snd (_close host s))) = _session_maker (self s)) /\
  fst (_close host_ok connected) = Return tt /\
  new_calls (trace connected) (snd (_close host_ok connected))
  = [Engine_dispose (sample_engine 1); print "INFO: Database connection closed."] /\
  _engine (self (snd (_close host_ok connected))) = None /\
  _session_maker (self (snd (_close host_ok connected))) = Some sample_maker /\
  _close host_ok (snd (_close host_ok connected)) = (Return tt, snd (_close host_ok connected)).
Proof.
  assert (Hreturns : fst (_close host_ok connected) = Return tt) by (vm_compute; reflexivity).
  split; [exact _close_keeps_session_maker|].
  split; [exact Hreturns|].
  split; [vm_compute; reflexivity|].
  split; [apply _close_clears_engine, Hreturns|].
  split; [vm_compute; reflexivity|].
  apply _close_idempotent, Hreturns.
Qed.

(** C2. In the state reached by a successful [_init_connection] followed by
    [_close], the engine handle is null and the session factory is not, so
    no notion of "Connected" makes both equivalences of the invariant true
    there: the manager is neither connected nor closed. *)
Theorem closed_manager_breaks_invariant :
  fst (_init_connection host_ok fresh) = Return tt /\
  _engine (self closed_after_use) = None /\
  _session_maker (self closed_after_use) = Some sample_maker /\
  ~ Connected (self closed_after_use) /\
  ~ Closed (self closed_after_use) /\
  (forall state_is_Connected : Prop,
      ~ ((is_Some (_session_maker (self closed_after_use)) <-> state_is_Connected) /\
         (is_Some (_engine (self closed_after_use)) <-> state_is_Connected))).
Proof.
  assert (E : _engine (self closed_after_use) = None) by (vm_compute; reflexivity).
  assert (M : _session_maker (self closed_after_use) = Some sample_maker)
    by (vm_compute; reflexivity).
  split; [vm_compute; reflexivity|].
  split; [exact E|]. split; [exact M|].
  split; [intros [[x Hx] _]; congruence|].
  split; [intros [_ Hm]; congruence|].
  intros P [Hmaker Hengine]. rewrite E in Hengine. rewrite M in Hmaker.
  destruct (proj2 Hengine (proj1 Hmaker (ex_intro _ sample_maker eq_refl))) as [x Hx].
  discriminate.
Qed.

(** C3. A manager that was only constructed refuses to open a session, with
    the "Database connection not initialised." error.  The manager that
    was connected and then closed does not: [get_session] obtains a session
    from the factory that [_close] left behind, runs the body, commits and
    closes. *)
Theorem closed_manager_still_opens_sessions :
  let session := {| session_id := 8; session_bind := sample_engine 1 |} in
  fst (get_session host_ok (fun _ => ret tt) fresh) = Raise not_initialised_error /\
  _engine (self closed_after_use) = None /\
  fst (get_session host_ok (fun _ => ret tt) closed_after_use) = Return tt /\
  new_calls (trace closed_after_use)
    (snd (get_session host_ok (fun _ => ret tt) closed_after_use))
  = [sessionmaker_call sample_maker; Session_commit session; Session_close session].
Proof. cbv zeta. repeat split; vm_compute; reflexivity. Qed.


(** The manager left by that failed initialisation opens sessions. *)
Lemma failed_initialisation_still_opens_sessions :
  _session_maker (self failed_to_connect) = Some {| bind := sample_engine 13 |} /\
  fst (get_session host_probe_fails (fun _ => ret tt) failed_to_connect) = Return tt.
Proof. split; vm_compute; reflexivity. Qed.

(** ** Session scopes on concrete hosts *)

Lemma completing_body_is_committed_witness :
  _session_maker (self connected) = Some sample_maker /\
  new_calls (trace scope_entered) (snd (get_session host_ok (fun _ => ret tt) connected))
  = [Session_commit sample_session; Session_close sample_session] /\
  count is_rollback
    (new_calls (trace scope_entered) (snd (get_session host_ok (fun _ => ret tt) connected)))
  = 0%nat /\
  fst (get_session host_ok (fun _ => ret tt) connected) = Return tt.
Proof.
  split; [vm_compute; reflexivity|].
  destruct (completing_body_is_committed host_ok (fun _ => ret tt) connected sample_maker tt
              scope_entered)
    as (Hcalls & _ & _ & Hrollback & _ & Hresult);
    [vm_compute; reflexivity | reflexivity | reflexivity |].
  split; [exact Hcalls|]. split; [exact Hrollback|]. exact Hresult.
Defined.

(** A body that completes, on a host whose [commit()] fails: the scope
    rolls back, so the number of [rollback()] calls is one, not zero. *)
Lemma commit_failure_causes_rollback :
  (fun _ : Session => ret tt) sample_session scope_entered = (Return tt, scope_entered) /\
  new_calls (trace scope_entered)
    (snd (get_session host_commit_fails (fun _ => ret tt) connected))
  = [Session_commit sample_session; Session_rollback sample_session;
     commit_failure_line mock_error; Session_close sample_session] /\
  count is_rollback
    (new_calls (trace scope_entered)
       (snd (get_session host_commit_fails (fun _ => ret tt) connected)))
  <> 0%nat.
Proof.
  split; [reflexivity|]. split; [vm_compute; reflexivity|]. vm_compute. discriminate.
Qed.

Lemma raising_body_is_rolled_back_witness :
  isinstance test_error Exception = true /\
  fst (get_session host_ok (fun _ => raise test_error) connected) = Raise (A:=unit) test_error /\
  new_calls (trace scope_entered)
    (snd (get_session host_ok (fun _ => raise (A:=unit) test_error) connected))
  = [Session_rollback sample_session; commit_failure_line test_error;
     Session_close sample_session].
Proof.
  split; [reflexivity|].
  destruct (raising_body_is_rolled_back host_ok (fun _ => raise (A:=unit) test_error) connected
              sample_maker test_error scope_entered)
    as (_ & _ & _ & _ & Hclean);
    [vm_compute; reflexivity | reflexivity | reflexivity |].
  apply Hclean; reflexivity.
Defined.

(** A body that raises [test_error], on a host whose [rollback()] fails:
    the caller gets the error of the rollback, not the one the body raised. *)
Lemma failed_rollback_replaces_error :
  (fun _ : Session => raise (A:=unit) test_error) sample_session scope_entered
  = (Raise test_error, scope_entered) /\
  fst (get_session host_rollback_fails (fun _ => raise (A:=unit) test_error) connected)
  = Raise rollback_error /\
  fst (get_session host_rollback_fails (fun _ => raise (A:=unit) test_error) connected)
  <> Raise test_error.
Proof.
  split; [reflexivity|]. split; [vm_compute; reflexivity|]. vm_compute. discriminate.
Qed.

Lemma failing_commit_is_rolled_back_witness :
  raises host_commit_fails (trace scope_entered) (Session_commit sample_session)
  = Some mock_error /\
  fst (get_session host_commit_fails (fun _ => ret tt) connected) = Raise mock_error /\
  new_calls (trace scope_entered)
    (snd (get_session host_commit_fails (fun _ => ret tt) connected))
  = [Session_commit sample_session; Session_rollback sample_session;
     commit_failure_line mock_error; Session_close sample_session].
Proof.
  split; [reflexivity|].
  destruct (failing_commit_is_rolled_back host_commit_fails (fun _ => ret tt)
              connected sample_maker tt scope_entered mock_error)
    as (_ & _ & _ & _ & Hclean);
    [vm_compute; reflexivity | reflexivity | reflexivity | reflexivity |].
  apply Hclean; reflexivity.
Defined.

(** A body that completes, on a host that lost its connection, so that
    [commit()] and then [rollback()] fail: the caller gets the error of the
    rollback, not the one of the commit. *)
Lemma failed_rollback_replaces_commit_error :
  raises host_connection_lost (trace scope_entered) (Session_commit sample_session)
  = Some mock_error /\
  fst (get_session host_connection_lost (fun _ => ret tt) connected) = Raise rollback_error /\
  fst (get_session host_connection_lost (fun _ => ret tt) connected) <> Raise mock_error.
Proof.
  split; [reflexivity|]. split; [vm_compute; reflexivity|]. vm_compute. discriminate.
Qed.

(** An exception outside [Exception] passes the [except] clause by: the
    session is closed but not rolled back. *)
Lemma interrupt_is_not_rolled_back :
  isinstance interrupt Exception = false /\
  fst (get_session host_ok (fun _ => raise (A:=unit) interrupt) connected) = Raise interrupt /\
  new_calls (trace scope_entered)
    (snd (get_session host_ok (fun _ => raise (A:=unit) interrupt) connected))
  = [Session_close sample_session].
Proof. repeat split; vm_compute; reflexivity. Qed.

(** ** Managers that never held a factory *)

(** A manager that was only constructed refuses to open a session. *)
Lemma get_session_on_new_manager (host : Host) {A : Type} (body : Session -> M A)
    (db host_name : string) (port timeout : Z) (tr : Trace) :
  get_session host body {| self := __init__ db host_name port timeout; trace := tr |}
  = (Raise not_initialised_error,
     {| self := __init__ db host_name port timeout; trace := tr |}).
Proof. apply get_session_not_initialised. reflexivity. Qed.

Section CreationFails.

Variable host : Host.

Hypothesis create_engine_raises :
  forall tr url fast timeout, raises host tr (create_engine url fast timeout) <> None.

Lemma attempt_body_creation_fails (attempt : Z) (s : State) :
  self (snd (attempt_body host attempt s)) = self s.
Proof.
  rewrite attempt_body_eq, attempt_try_eq. cbv zeta.
  destruct (decide _) as [E|E]; [reflexivity|].
  destruct (raises host _ (create_engine _ _ _)) as [e|] eqn:Ecreate.
  - destruct (transient e); [rewrite attempt_except_eq;
                             destruct (attempt <? _max_retries - 1) |]; reflexivity.
  - destruct (create_engine_raises _ _ _ _ Ecreate).
Qed.

(** When [create_engine] itself raises on every call, the object is left as
    it was; a new manager therefore stays without engine and factory and
    refuses to open a session. *)
Lemma _init_connection_creation_fails (s : State) :
  self (snd (_init_connection host s)) = self s.
Proof.
  unfold _init_connection. generalize (range _max_retries) as attempts.
  intros attempts. revert s.
  induction attempts as [|attempt attempts IH]; intros s; [reflexivity|].
  cbn [for_attempt]. unfold bind_M.
  pose proof (attempt_body_creation_fails attempt s) as Hbody.
  destruct (attempt_body host attempt s) as [[[|]|e] s1]; cbn [snd ret] in *; auto.
  rewrite IH. exact Hbody.
Qed.

Lemma failed_creation_leaves_new_manager_closed
    (db host_name : string) (port timeout : Z) (tr : Trace) :
  Closed (self (snd (_init_connection host
                       {| self := __init__ db host_name port timeout; trace := tr |}))).
Proof. rewrite _init_connection_creation_fails. split; reflexivity. Qed.

End CreationFails.

(** The run of the unit test of the retries: three creations, two waits,
    the error with its cause, and a manager that is still closed. *)
Example all_retries_fail :
  let out := _init_connection host_create_fails fresh in
  fst out = Raise (connection_failed mock_error) /\
  count is_create_engine (trace (snd out)) = 3%nat /\
  sleeps (trace (snd out)) = [1; 2] /\
  Closed (self (snd out)).
Proof. cbv zeta. repeat split; vm_compute; reflexivity. Qed.

(** The run of the unit test of one retry: the first creation fails, the
    second attempt succeeds after a wait of one second. *)
Example retry_succeeds :
  let host :=
    {| installed_drivers := fun _ => ["ODBC Driver 17 for SQL Server"];
       frozenset_first := first_member;
       raises := fun tr c =>
         match c with
         | create_engine _ _ _ =>
             if Nat.eqb (count is_create_engine tr) 0 then Some mock_error else None
         | _ => None
         end |} in
  let out := _init_connection host fresh in
  fst out = Return tt /\
  count is_create_engine (trace (snd out)) = 2%nat /\
  sleeps (trace (snd out)) = [1] /\
  Connected (self (snd out)).
Proof. cbv zeta. repeat split; vm_compute; eauto. Qed.

(** The example scenario of the specification. *)
Example sample_scenario :
  fst (_init_connection host_ok fresh) = Return tt /\
  count is_create_engine (trace connected) = 1%nat /\
  _engine (self connected) = Some (sample_engine 1) /\
  engine_url (sample_engine 1)
  = "mssql+pyodbc://localhost:1433/sample?driver=ODBC Driver 17 for SQL Server&trusted_connection=yes".
Proof. repeat split; vm_compute; reflexivity. Qed.

(** ** Exhausted retries *)




(** * Further properties *)

(** ** One attempt, case by case *)

Lemma connection_string_target (c1 c2 : DatabaseConnection) (driver : string) :
  target c1 = target c2 -> connection_string c1 driver = connection_string c2 driver.
Proof.
  unfold target, connection_string. intros H. inversion H as [[Hdb Hhost Hport Htimeout]].
  rewrite Hdb, Hhost, Hport. reflexivity.
Qed.

Lemma created_for_target (c1 c2 : DatabaseConnection) (c : Call) :
  target c1 = target c2 -> created_for c1 c -> created_for c2 c.
Proof.
  intros H. destruct c; cbn; auto.
  intros (Hfast & Htimeout & driver & Hin & Hurl).
  split; [exact Hfast|]. split.
  - rewrite Htimeout. unfold target in H. congruence.
  - exists driver. split; [exact Hin|]. rewrite Hurl. apply connection_string_target, H.
Qed.

Lemma first_member_iterates (s : gset string) : s <> ∅ -> first_member s ∈ s.
Proof.
  intros Hne. unfold first_member.
  destruct (elements s) as [|x l] eqn:E.
  - apply elements_empty_inv in E. apply leibniz_equiv in E. contradiction.
  - apply elem_of_elements. rewrite E. left.
Qed.

Section Outcomes.

Variable host : Host.

Lemma resolved_driver_is_supported (s : State) :
  iterates_members host ->
  SUPPORTED_DRIVERS ∩ list_to_set (installed_drivers host (trace s)) <> ∅ ->
  frozenset_first host (SUPPORTED_DRIVERS ∩ list_to_set (installed_drivers host (trace s)))
  ∈ SUPPORTED_DRIVERS.
Proof. intros Hiter E. pose proof (Hiter _ E) as H. apply elem_of_intersection in H. tauto. Qed.

Lemma attempt_body_cases (attempt : Z) (s : State) :
  exists suffix,
    trace (snd (attempt_body host attempt s)) = (trace s ++ suffix)%list /\
    target (self (snd (attempt_body host attempt s))) = target (self s) /\
    (iterates_members host -> Forall (created_for (self s)) suffix) /\
    count is_drivers suffix = 1%nat /\
    count is_dispose suffix = 0%nat /\
    match fst (attempt_body host attempt s) with
    | Return Returned =>
        count is_create_engine suffix = 1%nat /\ sleeps suffix = [] /\
        exists e pre line,
          suffix = (pre ++ [Engine_connect e; print line; Connection_exit e])%list /\
          raises host (trace s ++ pre)%list (Engine_connect e) = None /\
          _engine (self (snd (attempt_body host attempt s))) = Some e /\
          _session_maker (self (snd (attempt_body host attempt s))) = Some {| bind := e |} /\
          (length (trace s) < engine_id e)%nat
    | Return NextIteration =>
        attempt < _max_retries - 1 /\
        count is_create_engine suffix = 1%nat /\ sleeps suffix = [delay attempt]
    | Raise x =>
        sleeps suffix = [] /\
        (count is_create_engine suffix <= 1)%nat /\
        ((x = no_driver_error /\ suffix = [pyodbc_drivers]) \/
         (exists e, transient e = true /\ x = connection_failed e /\
                    _max_retries - 1 <= attempt /\
                    count is_create_engine suffix = 1%nat) \/
         (transient x = false /\
          exists tr c,
            trace (snd (attempt_body host attempt s)) = (tr ++ [c])%list /\
            (is_create_engine c || is_connect c) = true /\
            raises host tr c = Some x))
    end.
Proof.
  rewrite attempt_body_eq, attempt_try_eq. cbv zeta.
  destruct (decide _) as [E|E].
  { eexists. split; [trace_suffix|]. split; [reflexivity|].
    split; [intros _; repeat constructor|]. split; [reflexivity|]. split; [reflexivity|].
    cbn. split; [reflexivity|]. split; [lia|]. left. split; reflexivity. }
  destruct (raises host _ (create_engine _ _ _)) as [e|] eqn:Ecreate.
  { destruct (transient e) eqn:Et.
    - rewrite attempt_except_eq. destruct (attempt <? _max_retries - 1) eqn:B.
      + eexists. split; [trace_suffix|]. split; [reflexivity|].
        split; [created_for_facts resolved_driver_is_supported E|]. split; [reflexivity|]. split; [reflexivity|].
        cbn. split; [lia|]. split; reflexivity.
      + eexists. split; [trace_suffix|]. split; [reflexivity|].
        split; [created_for_facts resolved_driver_is_supported E|]. split; [reflexivity|]. split; [reflexivity|].
        cbn. split; [reflexivity|]. split; [lia|]. right. left.
        exists e. split; [exact Et|]. split; [reflexivity|]. split; [lia | reflexivity].
    - eexists. split; [trace_suffix|]. split; [reflexivity|].
      split; [created_for_facts resolved_driver_is_supported E|]. split; [reflexivity|]. split; [reflexivity|].
      cbn [fst snd]. split; [reflexivity|]. split; [cbn; lia|]. right. right.
      split; [exact Et|]. eexists. eexists. split; [reflexivity|].
      split; [reflexivity | exact Ecreate]. }
  destruct (raises host _ (Engine_connect _)) as [e|] eqn:Eprobe.
  { destruct (transient e) eqn:Et.
    - rewrite attempt_except_eq. destruct (attempt <? _max_retries - 1) eqn:B.
      + eexists. split; [trace_suffix|]. split; [reflexivity|].
        split; [created_for_facts resolved_driver_is_supported E|]. split; [reflexivity|]. split; [reflexivity|].
        cbn. split; [lia|]. split; reflexivity.
      + eexists. split; [trace_suffix|]. split; [reflexivity|].
        split; [created_for_facts resolved_driver_is_supported E|]. split; [reflexivity|]. split; [reflexivity|].
        cbn. split; [reflexivity|]. split; [lia|]. right. left.
        exists e. split; [exact Et|]. split; [reflexivity|]. split; [lia | reflexivity].
    - eexists. split; [trace_suffix|]. split; [reflexivity|].
      split; [created_for_facts resolved_driver_is_supported E|]. split; [reflexivity|]. split; [reflexivity|].
      cbn [fst snd]. split; [reflexivity|]. split; [cbn; lia|]. right. right.
      split; [exact Et|]. eexists. eexists. split; [reflexivity|].
      split; [reflexivity | exact Eprobe]. }
  eexists. split; [trace_suffix|]. split; [reflexivity|].
  split; [created_for_facts resolved_driver_is_supported E|]. split; [reflexivity|]. split; [reflexivity|].
  cbn [fst snd]. split; [reflexivity|]. split; [reflexivity|].
  eexists. eexists (_ :: _ :: _ :: nil). eexists.
  split; [reflexivity|].
  split.
  { unfold record_call in Eprobe. cbn [trace self] in Eprobe.
    rewrite <- !app_assoc in Eprobe. exact Eprobe. }
  split; [reflexivity|]. split; [reflexivity|].
  cbn. rewrite length_app. cbn. lia.
Qed.

End Outcomes.

(** ** A whole run of [_init_connection] *)

Lemma _init_connection_unroll (host : Host) (s : State) :
  _init_connection host s =
    match attempt_body host 0 s with
    | (Return Returned, s1) => (Return tt, s1)
    | (Return NextIteration, s1) =>
        match attempt_body host 1 s1 with
        | (Return Returned, s2) => (Return tt, s2)
        | (Return NextIteration, s2) =>
            match attempt_body host 2 s2 with
            | (Return _, s3) => (Return tt, s3)
            | (Raise e, s3) => (Raise e, s3)
            end
        | (Raise e, s2) => (Raise e, s2)
        end
    | (Raise e, s1) => (Raise e, s1)
    end.
Proof.
  unfold _init_connection. change (range _max_retries) with [0; 1; 2].
  cbn [for_attempt]. unfold bind_M, ret.
  destruct (attempt_body host 0 s) as [[[|]|e0] s1]; try reflexivity.
  destruct (attempt_body host 1 s1) as [[[|]|e1] s2]; try reflexivity.
  destruct (attempt_body host 2 s2) as [[[|]|e2] s3]; reflexivity.
Qed.

Lemma Forall_created_for_target (c1 c2 : DatabaseConnection) (calls : Trace) :
  target c1 = target c2 -> Forall (created_for c1) calls -> Forall (created_for c2) calls.
Proof.
  intros H HF. eapply List.Forall_impl; [|exact HF].
  intros c. apply created_for_target, H.
Qed.

(** The run in one statement: [n] attempts were started, each of them
    enumerated the drivers once, all but the last were followed by their
    wait, nothing was disposed, the constructor's attributes are as
    before, and the way the run ended is one of four. *)
Lemma _init_connection_summary (host : Host) (s : State) :
  exists suffix n,
    trace (snd (_init_connection host s)) = (trace s ++ suffix)%list /\
    (1 <= n <= 3)%nat /\
    target (self (snd (_init_connection host s))) = target (self s) /\
    (iterates_members host -> Forall (created_for (self s)) suffix) /\
    count is_drivers suffix = n /\
    count is_dispose suffix = 0%nat /\
    sleeps suffix = map delay (map Z.of_nat (seq 0 (n - 1))) /\
    match fst (_init_connection host s) with
    | Return _ =>
        count is_create_engine suffix = n /\
        exists e pre line,
          suffix = (pre ++ [Engine_connect e; print line; Connection_exit e])%list /\
          raises host (trace s ++ pre)%list (Engine_connect e) = None /\
          _engine (self (snd (_init_connection host s))) = Some e /\
          _session_maker (self (snd (_init_connection host s))) = Some {| bind := e |} /\
          (length (trace s) < engine_id e)%nat
    | Raise x =>
        (count is_create_engine suffix <= n)%nat /\
        ((x = no_driver_error /\ exists pre, suffix = (pre ++ [pyodbc_drivers])%list) \/
         (exists e, transient e = true /\ x = connection_failed e /\ n = 3%nat /\
                    count is_create_engine suffix = 3%nat) \/
         (transient x = false /\
          exists tr c,
            trace (snd (_init_connection host s)) = (tr ++ [c])%list /\
            (is_create_engine c || is_connect c) = true /\
            raises host tr c = Some x))
    end.
Proof.
  rewrite _init_connection_unroll.
  destruct (attempt_body_cases host 0 s) as (x0 & T0 & G0 & F0 & D0 & P0 & M0).
  destruct (attempt_body host 0 s) as [[[|]|e0] s1]; cbn [fst snd] in *.
  - (* returned at the first attempt *)
    destruct M0 as (C0 & S0 & e & pre & line & -> & Hprobe & He & Hm & Hid).
    exists (pre ++ [Engine_connect e; print line; Connection_exit e])%list, 1%nat.
    split; [exact T0|]. split; [lia|]. split; [exact G0|]. split; [exact F0|].
    split; [exact D0|]. split; [exact P0|]. split; [exact S0|]. split; [exact C0|].
    exists e, pre, line.
    split; [reflexivity|]. split; [exact Hprobe|]. split; [exact He|].
    split; [exact Hm | exact Hid].
  - (* retried once *)
    destruct M0 as (B0 & C0 & S0).
    destruct (attempt_body_cases host 1 s1) as (x1 & T1 & G1 & F1 & D1 & P1 & M1).
    destruct (attempt_body host 1 s1) as [[[|]|e1] s2]; cbn [fst snd] in *.
    + destruct M1 as (C1 & S1 & e & pre & line & Ex & Hprobe & He & Hm & Hid).
      exists (x0 ++ x1)%list, 2%nat.
      split; [rewrite T1, T0, <- app_assoc; reflexivity|].
      split; [lia|]. split; [congruence|].
      split; [intros Hi; apply Forall_app; split;
              [auto | eapply Forall_created_for_target; [exact G0 | auto]]|].
      split; [rewrite count_app, D0, D1; reflexivity|].
      split; [rewrite count_app, P0, P1; reflexivity|].
      split; [rewrite sleeps_app, S0, S1; reflexivity|].
      split; [rewrite count_app, C0, C1; reflexivity|].
      exists e, (x0 ++ pre)%list, line.
      split; [rewrite Ex, <- app_assoc; reflexivity|].
      split; [rewrite app_assoc, <- T0; exact Hprobe|].
      split; [exact He|]. split; [exact Hm|].
      rewrite T0, length_app in Hid. lia.
    + destruct M1 as (B1 & C1 & S1).
      destruct (attempt_body_cases host 2 s2) as (x2 & T2 & G2 & F2 & D2 & P2 & M2).
      destruct (attempt_body host 2 s2) as [[[|]|e2] s3]; cbn [fst snd] in *.
      * destruct M2 as (C2 & S2 & e & pre & line & Ex & Hprobe & He & Hm & Hid).
        exists (x0 ++ x1 ++ x2)%list, 3%nat.
        split; [rewrite T2, T1, T0, <- !app_assoc; reflexivity|].
        split; [lia|]. split; [congruence|].
        split; [intros Hi; apply Forall_app; split; [auto|];
                apply Forall_app; split;
                [eapply Forall_created_for_target; [exact G0 | auto]
                | eapply Forall_created_for_target;
                  [transitivity (target (self s1)); [exact G1 | exact G0] | auto]]|].
        split; [rewrite !count_app, D0, D1, D2; reflexivity|].
        split; [rewrite !count_app, P0, P1, P2; reflexivity|].
        split; [rewrite !sleeps_app, S0, S1, S2; reflexivity|].
        split; [rewrite !count_app, C0, C1, C2; reflexivity|].
        exists e, (x0 ++ x1 ++ pre)%list, line.
        split; [rewrite Ex, <- !app_assoc; reflexivity|].
        split; [rewrite !app_assoc, <- T0, <- T1; exact Hprobe|].
        split; [exact He|]. split; [exact Hm|].
        rewrite T1, T0, !length_app in Hid. lia.
      * exfalso. destruct M2 as (B2 & _). unfold _max_retries in B2. lia.
      * destruct M2 as (S2 & C2 & M2).
        exists (x0 ++ x1 ++ x2)%list, 3%nat.
        split; [rewrite T2, T1, T0, <- !app_assoc; reflexivity|].
        split; [lia|]. split; [congruence|].
        split; [intros Hi; apply Forall_app; split; [auto|];
                apply Forall_app; split;
                [eapply Forall_created_for_target; [exact G0 | auto]
                | eapply Forall_created_for_target;
                  [transitivity (target (self s1)); [exact G1 | exact G0] | auto]]|].
        split; [rewrite !count_app, D0, D1, D2; reflexivity|].
        split; [rewrite !count_app, P0, P1, P2; reflexivity|].
        split; [rewrite !sleeps_app, S0, S1, S2; reflexivity|].
        split; [rewrite !count_app, C0, C1; lia|].
        destruct M2 as [(-> & ->) | [(e & Et & -> & _ & C2') | (Et & tr & c & Hlast & Hkind & Hraise)]].
        -- left. split; [reflexivity|]. exists (x0 ++ x1)%list.
           rewrite <- app_assoc. reflexivity.
        -- right. left. exists e. repeat split; auto.
           rewrite !count_app, C0, C1, C2'. reflexivity.
        -- right. right. split; [exact Et|]. exists tr, c. repeat split; assumption.
    + destruct M1 as (S1 & C1 & M1).
      exists (x0 ++ x1)%list, 2%nat.
      split; [rewrite T1, T0, <- app_assoc; reflexivity|].
      split; [lia|]. split; [congruence|].
      split; [intros Hi; apply Forall_app; split;
              [auto | eapply Forall_created_for_target; [exact G0 | auto]]|].
      split; [rewrite count_app, D0, D1; reflexivity|].
      split; [rewrite count_app, P0, P1; reflexivity|].
      split; [rewrite sleeps_app, S0, S1; reflexivity|].
      split; [rewrite count_app, C0; lia|].
      destruct M1 as [(-> & ->) | [(e & Et & -> & B1 & _) | (Et & tr & c & Hlast & Hkind & Hraise)]].
      * left. split; [reflexivity|]. exists x0. reflexivity.
      * exfalso. unfold _max_retries in B1. lia.
      * right. right. split; [exact Et|]. exists tr, c. repeat split; assumption.
  - destruct M0 as (S0 & C0 & M0).
    exists x0, 1%nat.
    split; [exact T0|]. split; [lia|]. split; [exact G0|]. split; [exact F0|].
    split; [exact D0|]. split; [exact P0|]. split; [exact S0|]. split; [exact C0|].
    destruct M0 as [(-> & ->) | [(e & Et & -> & B0 & _) | (Et & tr & c & Hlast & Hkind & Hraise)]].
    + left. split; [reflexivity|]. exists []. reflexivity.
    + exfalso. unfold _max_retries in B0. lia.
    + right. right. split; [exact Et|]. exists tr, c. repeat split; assumption.
Qed.

(** ** Driver resolution, in both directions *)

(** X1. [_get_available_driver] makes exactly one call, the enumeration of
    the installed drivers, and writes nothing; it raises the "No supported
    ODBC driver found." error when no installed driver is a supported one,
    and otherwise returns a driver that is both supported and installed. *)
Theorem driver_resolution (host : Host) (s : State) :
  iterates_members host ->
  snd (_get_available_driver host s) = record_call pyodbc_drivers s /\
  ((SUPPORTED_DRIVERS ∩ list_to_set (installed_drivers host (trace s)) : gset string) = ∅ ->
   fst (_get_available_driver host s) = Raise no_driver_error) /\
  ((SUPPORTED_DRIVERS ∩ list_to_set (installed_drivers host (trace s)) : gset string) <> ∅ ->
   exists driver,
     fst (_get_available_driver host s) = Return driver /\
     driver ∈ SUPPORTED_DRIVERS /\
     driver ∈ installed_drivers host (trace s)).
Proof.
  intros Hiter. rewrite _get_available_driver_eq. cbv zeta. cbn [fst snd].
  split; [reflexivity|]. split.
  - intros E. destruct (decide _); [reflexivity | contradiction].
  - intros E. destruct (decide _); [contradiction|].
    eexists. split; [reflexivity|].
    pose proof (Hiter _ E) as Hin. apply elem_of_intersection in Hin.
    destruct Hin as [Hsupported Hinstalled].
    split; [exact Hsupported|]. apply elem_of_list_to_set in Hinstalled. exact Hinstalled.
Qed.

Lemma host_ok_iterates : iterates_members host_ok.
Proof. intros s Hne. apply first_member_iterates, Hne. Qed.

Lemma driver_resolution_witness :
  iterates_members host_ok /\
  fst (_get_available_driver host_ok fresh) = Return "ODBC Driver 17 for SQL Server" /\
  snd (_get_available_driver host_ok fresh) = record_call pyodbc_drivers fresh.
Proof.
  split; [exact host_ok_iterates|].
  destruct (driver_resolution host_ok fresh host_ok_iterates) as (Hstate & _ & _).
  split; [vm_compute; reflexivity | exact Hstate].
Defined.

(** ** Runs of [_init_connection] *)

(** X2. When [_init_connection] returns, it made some number [n] of
    attempts between one and three: it enumerated the drivers and created
    an engine [n] times, waited [n - 1] times, for [delay 0], [delay 1],
    ..., and its last three calls are the successful probe of an engine,
    the information line and the release of the probe connection.  That
    engine is the one the manager now holds, with a factory bound to it,
    and it was created during this call. *)
Theorem successful_initialisation (host : Host) (s : State) :
  fst (_init_connection host s) = Return tt ->
  exists (n : nat) (e : Engine) (line : string) (pre : Trace),
    (1 <= n <= 3)%nat /\
    count is_drivers (new_calls (trace s) (snd (_init_connection host s))) = n /\
    count is_create_engine (new_calls (trace s) (snd (_init_connection host s))) = n /\
    sleeps (new_calls (trace s) (snd (_init_connection host s)))
    = map delay (map Z.of_nat (seq 0 (n - 1))) /\
    new_calls (trace s) (snd (_init_connection host s))
    = (pre ++ [Engine_connect e; print line; Connection_exit e])%list /\
    raises host (trace s ++ pre)%list (Engine_connect e) = None /\
    _engine (self (snd (_init_connection host s))) = Some e /\
    _session_maker (self (snd (_init_connection host s))) = Some {| bind := e |} /\
    (length (trace s) < engine_id e)%nat.
Proof.
  intros Hreturn.
  destruct (_init_connection_summary host s)
    as (suffix & n & Etrace & Hn & _ & _ & Hdrivers & _ & Hsleeps & Hend).
  rewrite Hreturn in Hend.
  destruct Hend as (Hcreate & e & pre & line & Esuffix & Hprobe & He & Hm & Hid).
  rewrite (new_calls_app _ _ _ Etrace).
  exists n, e, line, pre. repeat split; assumption || lia.
Qed.

Lemma successful_initialisation_witness :
  fst (_init_connection host_recovers fresh) = Return tt /\
  exists (n : nat) (e : Engine) (line : string) (pre : Trace),
    (1 <= n <= 3)%nat /\
    count is_drivers (new_calls (trace fresh) (snd (_init_connection host_recovers fresh))) = n /\
    count is_create_engine (new_calls (trace fresh) (snd (_init_connection host_recovers fresh)))
    = n /\
    sleeps (new_calls (trace fresh) (snd (_init_connection host_recovers fresh)))
    = map delay (map Z.of_nat (seq 0 (n - 1))) /\
    new_calls (trace fresh) (snd (_init_connection host_recovers fresh))
    = (pre ++ [Engine_connect e; print line; Connection_exit e])%list /\
    raises host_recovers (trace fresh ++ pre)%list (Engine_connect e) = None /\
    _engine (self (snd (_init_connection host_recovers fresh))) = Some e /\
    _session_maker (self (snd (_init_connection host_recovers fresh))) = Some {| bind := e |} /\
    (length (trace fresh) < engine_id e)%nat.
Proof.
  split; [vm_compute; reflexivity|].
  apply (successful_initialisation host_recovers fresh). vm_compute. reflexivity.
Defined.

(** X3. Every [create_engine] call that [_init_connection] makes is for
    the manager's own target: the URL is the connection string built from
    its host, port and database with a supported driver,
    [fast_executemany] is [True] and the timeout is the manager's. *)
Theorem engines_are_created_for_the_target (host : Host) (s : State) :
  iterates_members host ->
  Forall (created_for (self s)) (new_calls (trace s) (snd (_init_connection host s))).
Proof.
  intros Hiter.
  destruct (_init_connection_summary host s) as (suffix & n & Etrace & _ & _ & Hfor & _).
  rewrite (new_calls_app _ _ _ Etrace). apply Hfor, Hiter.
Qed.

Lemma engines_are_created_for_the_target_witness :
  iterates_members host_ok /\
  Forall (created_for (self fresh)) (new_calls (trace fresh) (snd (_init_connection host_ok fresh))).
Proof.
  split; [exact host_ok_iterates|].
  apply (engines_are_created_for_the_target host_ok fresh host_ok_iterates).
Defined.

(** X4. [_init_connection] raises one of three kinds of error.  The
    "No supported ODBC driver found." error, right after an enumeration of
    the drivers.  The "Failed to connect to database" error caused by a
    transient error, and then only after three creations and the two
    waits.  Or an error that is not transient, and then it is the very
    error a [create_engine] or a probe raised, unwrapped, and that call is
    the last one made: no wait and no further attempt follows it. *)
Theorem init_connection_error_kinds (host : Host) (s : State) (x : exn) :
  fst (_init_connection host s) = Raise x ->
  (x = no_driver_error /\
   exists pre, new_calls (trace s) (snd (_init_connection host s)) = (pre ++ [pyodbc_drivers])%list)
  \/
  (exists e, transient e = true /\ x = connection_failed e /\
             count is_create_engine (new_calls (trace s) (snd (_init_connection host s))) = 3%nat /\
             sleeps (new_calls (trace s) (snd (_init_connection host s))) = [1; 2])
  \/
  (transient x = false /\
   exists tr c,
     trace (snd (_init_connection host s)) = (tr ++ [c])%list /\
     (is_create_engine c || is_connect c) = true /\
     raises host tr c = Some x).
Proof.
  intros Hraise.
  destruct (_init_connection_summary host s)
    as (suffix & n & Etrace & Hn & _ & _ & _ & _ & Hsleeps & Hend).
  rewrite Hraise in Hend. rewrite (new_calls_app _ _ _ Etrace).
  destruct Hend as (_ & [(-> & pre & ->) | [(e & Et & -> & -> & Hc) | Hother]]).
  - left. split; [reflexivity|]. exists pre. reflexivity.
  - right. left. exists e. repeat split; assumption.
  - right. right. exact Hother.
Qed.

Lemma init_connection_error_kinds_witness :
  fst (_init_connection host_rejects_first_url fresh) = Raise test_error /\
  transient test_error = false /\
  sleeps (new_calls (trace fresh) (snd (_init_connection host_rejects_first_url fresh))) = [] /\
  ((test_error = no_driver_error /\
    exists pre, new_calls (trace fresh) (snd (_init_connection host_rejects_first_url fresh))
                = (pre ++ [pyodbc_drivers])%list)
   \/
   (exists e, transient e = true /\ test_error = connection_failed e /\
              count is_create_engine
                (new_calls (trace fresh) (snd (_init_connection host_rejects_first_url fresh)))
              = 3%nat /\
              sleeps (new_calls (trace fresh) (snd (_init_connection host_rejects_first_url fresh)))
              = [1; 2])
   \/
   (transient test_error = false /\
    exists tr c,
      trace (snd (_init_connection host_rejects_first_url fresh)) = (tr ++ [c])%list /\
      (is_create_engine c || is_connect c) = true /\
      raises host_rejects_first_url tr c = Some test_error)).
Proof.
  split; [vm_compute; reflexivity|]. split; [reflexivity|]. split; [vm_compute; reflexivity|].
  apply (init_connection_error_kinds host_rejects_first_url fresh test_error).
  vm_compute. reflexivity.
Defined.

(** X5. Whatever the host does, one call of [_init_connection] enumerates
    the drivers and creates an engine at most three times each, sleeps at
    most twice and for at most three seconds in total, and disposes no
    engine: neither one it created in a failed attempt nor one the manager
    held before. *)
Theorem init_connection_is_bounded (host : Host) (s : State) :
  (count is_drivers (new_calls (trace s) (snd (_init_connection host s))) <= 3)%nat /\
  (count is_create_engine (new_calls (trace s) (snd (_init_connection host s))) <= 3)%nat /\
  (length (sleeps (new_calls (trace s) (snd (_init_connection host s)))) <= 2)%nat /\
  total_sleep (new_calls (trace s) (snd (_init_connection host s))) <= 3 /\
  count is_dispose (new_calls (trace s) (snd (_init_connection host s))) = 0%nat.
Proof.
  destruct (_init_connection_summary host s)
    as (suffix & n & Etrace & Hn & _ & _ & Hdrivers & Hdispose & Hsleeps & Hend).
  rewrite (new_calls_app _ _ _ Etrace). unfold total_sleep. rewrite Hsleeps.
  assert (Hcreate : (count is_create_engine suffix <= n)%nat).
  { destruct (fst (_init_connection host s)); [destruct Hend as [-> _]; lia | tauto]. }
  split; [lia|]. split; [lia|].
  assert (Hcases : n = 1%nat \/ n = 2%nat \/ n = 3%nat) by lia.
  destruct Hcases as [-> | [-> | ->]];
    (split; [cbn; lia | split; [vm_compute; discriminate | exact Hdispose]]).
Qed.

(** ** Every exit of a session scope *)

(** X6. Whenever the manager has a session factory, and whatever the body,
    [commit()], [rollback()] and [close()] do, the scope hands the body a
    session bound to the factory's engine, leaves the manager's attributes
    as the body left them, calls [commit()] exactly when the body
    completed, calls [rollback()] at most once, and ends with its one
    [close()] of the session as the last call; when that [close()] raises,
    its exception is what the caller gets. *)
Theorem session_is_always_closed (host : Host) {A : Type} (body : Session -> M A)
    (s : State) (maker : sessionmaker) :
  _session_maker (self s) = Some maker ->
  let session := new_session s maker in
  let entered := body session (record_call (sessionmaker_call maker) s) in
  let out := get_session host body s in
  session_bind session = bind maker /\
  self (snd out) = self (snd entered) /\
  count is_session_close (new_calls (trace (snd entered)) (snd out)) = 1%nat /\
  count is_commit (new_calls (trace (snd entered)) (snd out))
  = match fst entered with Return _ => 1%nat | Raise _ => 0%nat end /\
  (count is_rollback (new_calls (trace (snd entered)) (snd out)) <= 1)%nat /\
  exists before_close,
    trace (snd out) = (before_close ++ [Session_close session])%list /\
    forall e, raises host before_close (Session_close session) = Some e -> fst out = Raise e.
Proof.
  intros Emaker session entered out. subst out entered session.
  run_session. rewrite Emaker.
  match goal with |- context [body ?x ?st] => destruct (body x st) as [[a|e] s2] end;
    cbv beta iota.
  - destruct (raises host _ (Session_commit _)) as [e|]; cbv beta iota.
    + destruct (matches [Exception] e); cbv beta iota;
        [destruct (raises host _ (Session_rollback _)); cbv beta iota |];
        destruct (raises host _ (Session_close _)) eqn:Eclose; scope_leaf new_calls_app Eclose.
    + destruct (raises host _ (Session_close _)) eqn:Eclose; scope_leaf new_calls_app Eclose.
  - destruct (matches [Exception] e); cbv beta iota;
      [destruct (raises host _ (Session_rollback _)); cbv beta iota |];
      destruct (raises host _ (Session_close _)) eqn:Eclose; scope_leaf new_calls_app Eclose.
Qed.

Lemma session_is_always_closed_witness :
  _session_maker (self connected) = Some sample_maker /\
  count is_session_close
    (new_calls (trace scope_entered)
       (snd (get_session host_connection_lost (fun _ => ret tt) connected))) = 1%nat /\
  exists before_close,
    trace (snd (get_session host_connection_lost (fun _ => ret tt) connected))
    = (before_close ++ [Session_close sample_session])%list.
Proof.
  split; [vm_compute; reflexivity|].
  destruct (session_is_always_closed host_connection_lost (fun _ => ret tt) connected
              sample_maker)
    as (_ & _ & Hclose & _ & _ & before_close & Hlast & _); [vm_compute; reflexivity|].
  split; [exact Hclose|]. exists before_close. exact Hlast.
Defined.

(** X7. An exception of the body that is not an instance of [Exception]
    (a [KeyboardInterrupt], say) passes the [except] clause by: the scope
    neither commits nor rolls back, it only closes the session, and the
    caller gets that exception unless the [close()] raises. *)
Theorem interrupted_body_is_only_closed (host : Host) {A : Type} (body : Session -> M A)
    (s : State) (maker : sessionmaker) (e : exn) (s2 : State) :
  _session_maker (self s) = Some maker ->
  body (new_session s maker) (record_call (sessionmaker_call maker) s) = (Raise e, s2) ->
  isinstance e Exception = false ->
  new_calls (trace s2) (snd (get_session host body s)) = [Session_close (new_session s maker)] /\
  fst (get_session host body s)
  = match raises host (trace s2) (Session_close (new_session s maker)) with
    | Some e' => Raise e'
    | None => Raise e
    end.
Proof.
  intros Emaker Ebody Eclass.
  assert (Hmatch : matches [Exception] e = false).
  { unfold matches. cbn [existsb]. rewrite Eclass. reflexivity. }
  revert Ebody. run_session. rewrite Emaker. intros ->. cbv beta iota. rewrite Hmatch.
  destruct (raises host _ (Session_close _)); cbn [fst snd trace self];
    (erewrite new_calls_app by reflexivity); split; reflexivity.
Qed.

Lemma interrupted_body_is_only_closed_witness :
  isinstance interrupt Exception = false /\
  new_calls (trace scope_entered)
    (snd (get_session host_ok (fun _ => raise (A:=unit) interrupt) connected))
  = [Session_close sample_session] /\
  fst (get_session host_ok (fun _ => raise (A:=unit) interrupt) connected) = Raise interrupt.
Proof.
  split; [reflexivity|].
  apply (interrupted_body_is_only_closed host_ok (fun _ => raise (A:=unit) interrupt)
           connected sample_maker interrupt scope_entered);
    [vm_compute; reflexivity | reflexivity | reflexivity].
Defined.

(** ** Before the initialisation *)

Lemma run_op_before_init (host : Host) (o : Op) (c : DatabaseConnection) (tr : Trace) :
  _engine c = None -> _session_maker c = None -> is_init_connection o = false ->
  run_op host o {| self := c; trace := tr |}
  = (answer_before_init o, {| self := c; trace := tr |}).
Proof.
  intros He Hm Ho. destruct o as [|body|]; [discriminate | |]; cbn [run_op answer_before_init].
  - apply get_session_not_initialised. exact Hm.
  - apply _close_noop. exact He.
Qed.

(** X8. On a manager that was only constructed, no sequence of
    [get_session] and [_close] calls does anything: every [get_session]
    raises the "Database connection not initialised." error without
    entering its body, every [_close] returns, no call reaches the outside
    world and the manager stays as the constructor left it. *)
Theorem nothing_happens_before_initialisation (host : Host) (ops : list Op)
    (db host_name : string) (port timeout : Z) (tr : Trace) :
  Forall (fun o => is_init_connection o = false) ops ->
  run_ops host ops {| self := __init__ db host_name port timeout; trace := tr |}
  = {| self := __init__ db host_name port timeout; trace := tr |} /\
  Forall (fun o =>
            run_op host o {| self := __init__ db host_name port timeout; trace := tr |}
            = (answer_before_init o,
               {| self := __init__ db host_name port timeout; trace := tr |})) ops.
Proof.
  intros Hops. split.
  - unfold run_ops. induction Hops as [|o ops Ho _ IH]; [reflexivity|].
    cbn [fold_left]. rewrite run_op_before_init by (reflexivity || exact Ho). exact IH.
  - eapply List.Forall_impl; [|exact Hops].
    intros o Ho. apply run_op_before_init; reflexivity || exact Ho.
Qed.

Lemma nothing_happens_before_initialisation_witness :
  run_ops host_ok [op_close; op_get_session (fun _ => ret tt); op_close] fresh = fresh.
Proof.
  apply (nothing_happens_before_initialisation host_ok
           [op_close; op_get_session (fun _ => ret tt); op_close] "sample" "localhost" 1433 30 []).
  repeat constructor.
Defined.

(** ** What every sequence of calls keeps *)

Lemma run_op_target (host : Host) (o : Op) (s : State) :
  keeps_self_op o -> target (self (snd (run_op host o s))) = target (self s).
Proof.
  intros Hop. destruct o as [|body|]; cbn [run_op].
  - destruct (_init_connection_summary host s) as (_ & _ & _ & _ & Htarget & _). exact Htarget.
  - rewrite get_session_keeps_self by exact Hop. reflexivity.
  - apply _close_keeps_target.
Qed.

(** X9. What the constructor stored (database, host, port and timeout) is
    never changed by [_init_connection], [get_session] or [_close], in any
    order and whatever fails, as long as the bodies of the session scopes
    do not write the manager's attributes themselves. *)
Theorem target_is_never_changed (host : Host) (ops : list Op) (s : State) :
  Forall keeps_self_op ops ->
  target (self (run_ops host ops s)) = target (self s).
Proof.
  intros Hops. revert s. unfold run_ops.
  induction Hops as [|o ops Ho _ IH]; intros s; [reflexivity|].
  cbn [fold_left]. rewrite IH. apply run_op_target, Ho.
Qed.

Lemma target_is_never_changed_witness :
  target (self (run_ops host_probe_fails
                  [op_init_connection; op_get_session (fun _ => ret tt); op_close] fresh))
  = ("sample", "localhost", 1433, 30).
Proof.
  apply (target_is_never_changed host_probe_fails
           [op_init_connection; op_get_session (fun _ => ret tt); op_close] fresh).
  repeat constructor.
Defined.

(** X10. From the constructor on, after any sequence of
    [_init_connection], [get_session] and [_close] calls, whatever fails,
    the manager never holds an engine without a session factory bound to
    that same engine (the converse fails: a factory outlives its engine). *)
Theorem engine_never_without_factory (host : Host) (ops : list Op)
    (db host_name : string) (port timeout : Z) (tr : Trace) :
  Forall keeps_self_op ops ->
  forall e,
    _engine (self (run_ops host ops {| self := __init__ db host_name port timeout; trace := tr |}))
    = Some e ->
    _session_maker
      (self (run_ops host ops {| self := __init__ db host_name port timeout; trace := tr |}))
    = Some {| bind := e |}.
Proof.
  intros Hops.
  apply (reachable_maker_bound host ops
           {| self := __init__ db host_name port timeout; trace := tr |} Hops).
  intros e He. discriminate.
Qed.

Lemma engine_never_without_factory_witness :
  _engine (self (run_ops host_recovers
                   [op_init_connection; op_close; op_init_connection] fresh))
  = Some (sample_engine 13) /\
  _session_maker (self (run_ops host_recovers
                          [op_init_connection; op_close; op_init_connection] fresh))
  = Some {| bind := sample_engine 13 |}.
Proof.
  assert (E : _engine (self (run_ops host_recovers
                               [op_init_connection; op_close; op_init_connection] fresh))
              = Some (sample_engine 13)) by (vm_compute; reflexivity).
  split; [exact E|].
  apply (engine_never_without_factory host_recovers
           [op_init_connection; op_close; op_init_connection] "sample" "localhost" 1433 30 []);
    [repeat constructor | exact E].
Defined.

(** ** The two scopes together: [main] *)

Lemma get_connection_eq (host : Host) {A : Type} (db host_name : string) (port timeout : Z)
    (body : M A) (before : Trace) :
  get_connection host db host_name port timeout body before =
    match _init_connection host {| self := __init__ db host_name port timeout;
                                   trace := before |} with
    | (Raise e, s1) => (Raise e, s1)
    | (Return _, s1) =>
        (match fst (_close host (log_unexpected (fst (body s1)) (snd (body s1)))) with
         | Return _ => fst (body s1)
         | Raise x => Raise x
         end,
         snd (_close host (log_unexpected (fst (body s1)) (snd (body s1)))))
    end.
Proof.
  unfold get_connection, get_connection_from. unfold bind_M at 1.
  destruct (_init_connection host _) as [[[]|e] s1]; [|reflexivity].
  unfold try_finally, try_except.
  destruct (body s1) as [[a|e] s2]; cbn [fst snd log_unexpected].
  - destruct (_close host s2) as [[[]|x] s3]; reflexivity.
  - destruct (matches [Exception] e); unfold bind_M, call, raise;
      match goal with |- context [_close host ?st] =>
        destruct (_close host st) as [[[]|x] s3] end; reflexivity.
Qed.

(** With a factory, the last call of a session scope is the [close()] of
    the session it created. *)
Lemma get_session_last_call (host : Host) {A : Type} (body : Session -> M A)
    (s : State) (maker : sessionmaker) :
  _session_maker (self s) = Some maker ->
  exists before_close,
    trace (snd (get_session host body s))
    = (before_close ++ [Session_close (new_session s maker)])%list.
Proof.
  intros Emaker. run_session. rewrite Emaker.
  match goal with |- context [body ?x ?st] => destruct (body x st) as [[a|e] s2] end;
    cbv beta iota.
  - destruct (raises host _ (Session_commit _)) as [e|]; cbv beta iota.
    + destruct (matches [Exception] e); cbv beta iota;
        [destruct (raises host _ (Session_rollback _)); cbv beta iota |];
        destruct (raises host _ (Session_close _)); eexists; reflexivity.
    + destruct (raises host _ (Session_close _)); eexists; reflexivity.
  - destruct (matches [Exception] e); cbv beta iota;
      [destruct (raises host _ (Session_rollback _)); cbv beta iota |];
      destruct (raises host _ (Session_close _)); eexists; reflexivity.
Qed.

Lemma log_unexpected_self {A : Type} (r : Result A) (s : State) :
  self (log_unexpected r s) = self s.
Proof.
  destruct r as [a|e]; [reflexivity|].
  cbn [log_unexpected]. destruct (matches [Exception] e); reflexivity.
Qed.

Lemma log_unexpected_trace {A : Type} (r : Result A) (s : State) :
  exists logged,
    trace (log_unexpected r s) = (trace s ++ logged)%list /\
    (logged = [] \/ exists line, logged = [print line]).
Proof.
  destruct r as [a|e]; [exists []; split; [now rewrite app_nil_r | left; reflexivity]|].
  cbn [log_unexpected]. destruct (matches [Exception] e).
  - eexists. split; [reflexivity|]. right. eexists. reflexivity.
  - exists []. split; [now rewrite app_nil_r | left; reflexivity].
Qed.

(** X11. [main] connects to database "sample" on localhost:1433 with the
    default timeout of 30.  If the initialisation raises, that exception
    is the outcome and the state is the one the initialisation left: no
    session is opened and nothing is disposed.  If it returns, then
    whatever the statement, the commit, the rollback and the close of the
    session do, the session is closed before the engine is disposed: the
    trace ends with the [close()] of the session, at most one error line,
    and the disposal of the engine the initialisation had stored.  When
    that disposal returns, the closing line follows and the manager ends
    without engine; when it raises, nothing follows, its exception is the
    outcome of [main] and the manager still holds the engine.  The target
    is unchanged either way. *)
Theorem main_closes_session_then_engine (host : Host)
    (execute : Session -> string -> M string) (before : Trace) :
  keeps_manager execute ->
  let s0 := {| self := __init__ "sample" "localhost" 1433 30; trace := before |} in
  (forall e, fst (_init_connection host s0) = Raise e ->
             main host execute before = (Raise e, snd (_init_connection host s0))) /\
  (fst (_init_connection host s0) = Return tt ->
   exists (e : Engine) (session : Session) (pre logged : Trace),
     _engine (self (snd (_init_connection host s0))) = Some e /\
     session_bind session = e /\
     (logged = [] \/ exists line, logged = [print line]) /\
     target (self (snd (main host execute before))) = ("sample", "localhost", 1433, 30) /\
     match raises host (pre ++ [Session_close session] ++ logged)%list (Engine_dispose e) with
     | None =>
         trace (snd (main host execute before))
         = (pre ++ [Session_close session] ++ logged
                ++ [Engine_dispose e; print "INFO: Database connection closed."])%list /\
         _engine (self (snd (main host execute before))) = None
     | Some x =>
         trace (snd (main host execute before))
         = (pre ++ [Session_close session] ++ logged ++ [Engine_dispose e])%list /\
         fst (main host execute before) = Raise x /\
         _engine (self (snd (main host execute before))) = Some e
     end).
Proof.
  intros Hexec s0. unfold main. rewrite get_connection_eq. fold s0.
  destruct (_init_connection_summary host s0) as (_ & _ & _ & _ & Htarget & _).
  destruct (_init_connection host s0) as [[[]|x] s1] eqn:Einit; cbn [fst snd] in *.
  2: { split; [intros e He; congruence | discriminate]. }
  split; [discriminate|]. intros _.
  destruct (_init_connection_connects host s0 s1 Einit) as (e & He & Hm).
  set (work := fun session : Session =>
                 bind_M (execute session "SELECT 1") (fun result => call (print result))).
  assert (Hwork : keeps_self work).
  { intros session st. unfold work, bind_M, call.
    pose proof (Hexec session "SELECT 1" st) as Hst.
    destruct (execute session "SELECT 1" st) as [[r|x] st']; exact Hst. }
  pose proof (get_session_keeps_self host work s1 Hwork) as Hself.
  destruct (get_session_last_call host work s1 {| bind := e |} Hm) as (pre & Hlast).
  destruct (get_session host work s1) as [r s2]; cbn [fst snd] in *.
  destruct (log_unexpected_trace r s2) as (logged & Hlogged & Hshape).
  pose proof (log_unexpected_self r s2) as Hlogself.
  exists e, (new_session s1 {| bind := e |}), pre, logged.
  split; [exact He|]. split; [reflexivity|]. split; [exact Hshape|].
  split.
  { rewrite _close_keeps_target, (f_equal target Hlogself), (f_equal target Hself).
    exact Htarget. }
  assert (Etr : trace (log_unexpected r s2)
                = (pre ++ [Session_close (new_session s1 {| bind := e |})] ++ logged)%list).
  { rewrite Hlogged, Hlast, <- !app_assoc. reflexivity. }
  rewrite _close_spec, Hlogself, Hself, He, Etr.
  destruct (raises host _ (Engine_dispose e)); cbn [fst snd trace self record_call close_calls].
  - rewrite Etr, Hlogself, Hself, <- !app_assoc. cbn [app].
    split; [reflexivity|]. split; [reflexivity | exact He].
  - rewrite <- !app_assoc. cbn [app]. split; reflexivity.
Qed.

Lemma execute_quietly_keeps_manager : keeps_manager execute_quietly.
Proof. intros session statement s. reflexivity. Qed.

Lemma main_closes_session_then_engine_witness :
  keeps_manager execute_quietly /\
  fst (_init_connection host_ok fresh) = Return tt /\
  fst (main host_ok execute_quietly []) = Return tt /\
  exists (e : Engine) (session : Session) (pre logged : Trace),
    _engine (self (snd (_init_connection host_ok fresh))) = Some e /\
    session_bind session = e /\
    (logged = [] \/ exists line, logged = [print line]) /\
    target (self (snd (main host_ok execute_quietly []))) = ("sample", "localhost", 1433, 30) /\
    match raises host_ok (pre ++ [Session_close session] ++ logged)%list (Engine_dispose e) with
    | None =>
        trace (snd (main host_ok execute_quietly []))
        = (pre ++ [Session_close session] ++ logged
               ++ [Engine_dispose e; print "INFO: Database connection closed."])%list /\
        _engine (self (snd (main host_ok execute_quietly []))) = None
    | Some x =>
        trace (snd (main host_ok execute_quietly []))
        = (pre ++ [Session_close session] ++ logged ++ [Engine_dispose e])%list /\
        fst (main host_ok execute_quietly []) = Raise x /\
        _engine (self (snd (main host_ok execute_quietly []))) = Some e
    end.
Proof.
  split; [exact execute_quietly_keeps_manager|]. split; [vm_compute; reflexivity|].
  split; [vm_compute; reflexivity|].
  destruct (main_closes_session_then_engine host_ok execute_quietly []
              execute_quietly_keeps_manager) as (_ & Hok).
  apply Hok. vm_compute. reflexivity.
Defined.

(** ** Backoff between the attempts *)

Lemma attempts_and_waits_app (a b : Trace) :
  attempts_and_waits (a ++ b)%list = (attempts_and_waits a ++ attempts_and_waits b)%list.
Proof. apply List.filter_app. Qed.

(** One pass through the loop body starts with the enumeration of the
    drivers and, exactly when it ends in a retry, makes one wait, of
    [_init_delay * _backoff_factor ^ attempt] seconds. *)
Lemma attempt_body_schedule (host : Host) (attempt : Z) (s : State) :
  exists suffix,
    trace (snd (attempt_body host attempt s)) = (trace s ++ suffix)%list /\
    count is_drivers suffix = 1%nat /\
    attempts_and_waits suffix
    = pyodbc_drivers ::
      match fst (attempt_body host attempt s) with
      | Return NextIteration => [sleep (_init_delay * _backoff_factor ^ attempt)]
      | _ => []
      end /\
    (fst (attempt_body host attempt s) = Return NextIteration -> attempt < _max_retries - 1).
Proof.
  rewrite attempt_body_eq, attempt_try_eq. cbv zeta.
  destruct (decide _) as [E|E].
  { eexists. split; [trace_suffix|]. repeat split. discriminate. }
  destruct (raises host _ (create_engine _ _ _)) as [e|].
  { destruct (transient e); [rewrite attempt_except_eq;
                             destruct (attempt <? _max_retries - 1) eqn:B |];
      (eexists; split; [trace_suffix|]; repeat split; try discriminate).
    intros _. apply Z.ltb_lt, B. }
  destruct (raises host _ (Engine_connect _)) as [e|].
  { destruct (transient e); [rewrite attempt_except_eq;
                             destruct (attempt <? _max_retries - 1) eqn:B |];
      (eexists; split; [trace_suffix|]; repeat split; try discriminate).
    intros _. apply Z.ltb_lt, B. }
  eexists. split; [trace_suffix|]. repeat split. discriminate.
Qed.

(** A run is a sequence of attempts with one wait between each two: the
    wait after the attempt of index [a] lasts
    [_init_delay * _backoff_factor ^ a] seconds. *)
Lemma _init_connection_schedule (host : Host) (s : State) :
  exists suffix,
    trace (snd (_init_connection host s)) = (trace s ++ suffix)%list /\
    (1 <= count is_drivers suffix <= 3)%nat /\
    attempts_and_waits suffix
    = (flat_map (fun a : nat =>
                   [pyodbc_drivers; sleep (_init_delay * _backoff_factor ^ Z.of_nat a)])
         (seq 0 (count is_drivers suffix - 1))
       ++ [pyodbc_drivers])%list.
Proof.
  rewrite _init_connection_unroll.
  destruct (attempt_body_schedule host 0 s) as (x0 & T0 & D0 & W0 & B0).
  destruct (attempt_body host 0 s) as [[[|]|e0] s1]; cbn [fst snd] in *.
  - exists x0. rewrite D0, W0. repeat split; try lia. exact T0.
  - destruct (attempt_body_schedule host 1 s1) as (x1 & T1 & D1 & W1 & B1).
    destruct (attempt_body host 1 s1) as [[[|]|e1] s2]; cbn [fst snd] in *.
    + exists (x0 ++ x1)%list.
      rewrite count_app, attempts_and_waits_app, D0, D1, W0, W1.
      split; [rewrite T1, T0, <- app_assoc; reflexivity|]. split; [lia | reflexivity].
    + destruct (attempt_body_schedule host 2 s2) as (x2 & T2 & D2 & W2 & B2).
      exists (x0 ++ x1 ++ x2)%list.
      rewrite !count_app, !attempts_and_waits_app, D0, D1, D2, W0, W1, W2.
      split.
      { destruct (attempt_body host 2 s2) as [[[|]|e2] s3]; cbn [fst snd] in *;
          rewrite T2, T1, T0, <- !app_assoc; reflexivity. }
      split; [lia|].
      destruct (attempt_body host 2 s2) as [[[|]|e2] s3]; cbn [fst snd] in *;
        try reflexivity.
      exfalso. specialize (B2 eq_refl). unfold _max_retries in B2. lia.
    + exists (x0 ++ x1)%list.
      rewrite count_app, attempts_and_waits_app, D0, D1, W0, W1.
      split; [rewrite T1, T0, <- app_assoc; reflexivity|]. split; [lia | reflexivity].
  - exists x0. rewrite D0, W0. repeat split; try lia. exact T0.
Qed.

(** C7. In every run of [_init_connection], on every host, between one and
    three attempts are started, and the run is: attempt, wait, attempt,
    wait, attempt, where the wait that follows the attempt of index [a]
    (counting from 0) lasts [_init_delay * _backoff_factor ^ a] seconds; so
    there is one wait for each retry, and none after the last attempt.
    With the constants of the method that delay is [2 ^ a], and the first
    retry waits [_init_delay].  The [except] branch of every attempt that
    may be retried makes that wait.  On the host whose server is
    unreachable the run is: attempt, one second, attempt, two seconds,
    attempt. *)
Theorem backoff_delay :
  (forall (host : Host) (s : State),
      let calls := new_calls (trace s) (snd (_init_connection host s)) in
      (1 <= count is_drivers calls <= 3)%nat /\
      attempts_and_waits calls
      = (flat_map (fun a : nat =>
                     [pyodbc_drivers; sleep (_init_delay * _backoff_factor ^ Z.of_nat a)])
           (seq 0 (count is_drivers calls - 1))
         ++ [pyodbc_drivers])%list /\
      sleeps calls
      = map (fun a : nat => _init_delay * _backoff_factor ^ Z.of_nat a)
          (seq 0 (count is_drivers calls - 1))) /\
  (forall a : nat,
      delay (Z.of_nat a) = _init_delay * _backoff_factor ^ Z.of_nat a /\
      delay (Z.of_nat a) = 2 ^ Z.of_nat a) /\
  delay 0 = _init_delay /\
  (forall (a : Z) (e : exn) (s1 : State),
      0 <= a < _max_retries - 1 ->
      exists line,
        attempt_except a e s1
        = (Return NextIteration,
           record_call (sleep (_init_delay * _backoff_factor ^ a))
             (record_call (print line) s1))) /\
  attempts_and_waits (trace (snd (_init_connection host_probe_fails fresh)))
  = [pyodbc_drivers; sleep 1; pyodbc_drivers; sleep 2; pyodbc_drivers].
Proof.
  split.
  { intros host s calls. subst calls.
    destruct (_init_connection_schedule host s) as (suffix & Etrace & Hn & Hschedule).
    destruct (_init_connection_summary host s)
      as (suffix' & n & Etrace' & _ & _ & _ & Hdrivers & _ & Hsleeps & _).
    assert (suffix' = suffix) as ->
        by (eapply app_inv_head; rewrite <- Etrace, <- Etrace'; reflexivity).
    rewrite (new_calls_app _ _ _ Etrace).
    split; [exact Hn|]. split; [exact Hschedule|].
    rewrite Hsleeps, Hdrivers, map_map. reflexivity. }
  split; [intros a; split; [reflexivity | apply delay_eq]|].
  split; [reflexivity|].
  split.
  { intros a e s1 [_ Ha]. rewrite attempt_except_eq.
    apply Z.ltb_lt in Ha. rewrite Ha. eexists. reflexivity. }
  vm_compute. reflexivity.
Qed.

(** ** A failing disposal *)

(** With an engine whose [dispose()] raises, the facade loses the body's
    exception: the caller gets the one of the disposal, and the manager
    keeps its engine. *)
Lemma failed_dispose_replaces_outcome :
  let out := get_connection host_dispose_fails "sample" "localhost" 1433 30
               (raise (A:=unit) test_error) [] in
  fst out = Raise dispose_error /\
  _engine (self (snd out)) = Some (sample_engine 1) /\
  count is_dispose (trace (snd out)) = 1%nat.
Proof. cbv zeta. repeat split; vm_compute; reflexivity. Qed.
